(** * Function-calling schema adapter: [functions_utils.py]

    A shallow embedding of
    [libs/vertexai/langchain_google_vertexai/functions_utils.py]:
    the allOf flattener [_replace_all_ofs], the parameter filter built on
    the [ParametersSchema] class, the function-description builders and
    the function-call result parser, followed by the properties stated
    about them. *)

From Stdlib Require Import List String Ascii ZArith Bool Lia DecimalString.
Import ListNotations.
Open Scope string_scope.

(** ** Python values

    The objects the module handles are JSON-shaped: [None], booleans,
    integers, strings, lists and dictionaries keyed by strings
    ([Dict[str, Any]] in the source).  A dictionary is an association
    list in insertion order; a Python dictionary never holds a key
    twice, which is the invariant [keys_unique] below.  Strings are
    sequences of one-byte characters; floating-point numbers are left
    out. *)

Unset Elimination Schemes.
Inductive json : Type :=
| JNull
| JBool (b : bool)
| JNum (n : Z)
| JStr (s : string)
| JList (l : list json)
| JDict (d : list (string * json)).
Set Elimination Schemes.

(** A Python [dict] with string keys. *)
Definition dict : Type := list (string * json).

(** ** The message and generation objects of the orchestration framework *)

Record message : Type := Message {
  content : string;
  additional_kwargs : dict
}.

(** [ChatGeneration] is the generation kind that carries a message. *)
Inductive generation : Type :=
| Generation (text : string)
| ChatGeneration (msg : message).

(** ** Exceptions

    An exception is its class and the pieces of its text: literal text,
    the [repr] of a value and the [str] of a message, as the f-strings
    of the source interpolate them.  The texts the interpreter and the
    libraries produce for their own errors are not modelled: these
    exceptions carry no piece, except [KeyError], whose argument is the
    missing key. *)

Inductive exn_class : Type :=
| ValueError | KeyError | TypeError | AttributeError | IndexError
| ValidationError | JSONDecodeError | OutputParserException.

Inductive piece : Type :=
| Lit (s : string)
| Repr (v : json)
| Str (m : message).

Record exn : Type := Exn { exn_class_of : exn_class; exn_text : list piece }.

(** The result of a call: a value, a raised exception, or [OutOfModel]
    when the call leaves what is modelled here: it would build a
    dictionary with a key that is not a string, which the value type
    above cannot hold, or it depends on a conversion of the libraries
    that is not described below.  Nothing is claimed about a call whose
    model is [OutOfModel]. *)
Inductive outcome (A : Type) : Type :=
| Ret (a : A)
| Raise (e : exn)
| OutOfModel.
Arguments Ret {A} a.
Arguments Raise {A} e.
Arguments OutOfModel {A}.

Definition bind {A B} (c : outcome A) (k : A -> outcome B) : outcome B :=
  match c with
  | Ret a => k a
  | Raise e => Raise e
  | OutOfModel => OutOfModel
  end.

Notation "x <- c ;; k" := (bind c (fun x => k))
  (at level 61, c at next level, right associativity).

Definition raise {A} (c : exn_class) (text : list piece) : outcome A :=
  Raise (Exn c text).

(** [[f(x) for x in l]]: left to right, the first exception wins. *)
Definition list_comp {A B} (f : A -> outcome B) : list A -> outcome (list B) :=
  fix go (l : list A) : outcome (list B) :=
    match l with
    | [] => Ret []
    | x :: l' => y <- f x ;; ys <- go l' ;; Ret (y :: ys)
    end.

(** ** Dictionary operations *)

(** [d.get(k)], [None] when the key is absent. *)
Fixpoint dict_get (k : string) (d : dict) : option json :=
  match d with
  | [] => None
  | (k', v) :: d' => if String.eqb k k' then Some v else dict_get k d'
  end.

(** [k in d] *)
Definition dict_mem (k : string) (d : dict) : bool :=
  match dict_get k d with Some _ => true | None => false end.

(** [d.get(k, default)] *)
Definition dict_get_default (k : string) (default : json) (d : dict) : json :=
  match dict_get k d with Some v => v | None => default end.

(** [d[k] = v]: an existing key keeps its place, a new key goes last. *)
Fixpoint dict_set (k : string) (v : json) (d : dict) : dict :=
  match d with
  | [] => [(k, v)]
  | (k', v') :: d' =>
      if String.eqb k k' then (k', v) :: d' else (k', v') :: dict_set k v d'
  end.

(** [d[k]] *)
Definition dict_item (k : string) (d : dict) : outcome json :=
  match dict_get k d with
  | Some v => Ret v
  | None => raise KeyError [Repr (JStr k)]
  end.

Definition keys (d : dict) : list string := map fst d.

(** Truth value of an object, as [if x:] and [x or y] test it. *)
Definition truthy (v : json) : bool :=
  match v with
  | JNull => false
  | JBool b => b
  | JNum n => negb (Z.eqb n 0)
  | JStr s => negb (String.eqb s EmptyString)
  | JList l => match l with [] => false | _ => true end
  | JDict d => match d with [] => false | _ => true end
  end.

(** [dict(x)].  A dictionary is copied.  Any other argument is iterated
    as a sequence of key/value pairs: every element must itself be an
    iterable of exactly two items ([ValueError] otherwise, [TypeError]
    when it is not iterable), the first of which is the key.  A string
    iterates over its characters and a dictionary over its keys. *)
Definition dict_pair (e : json) : outcome (string * json) :=
  match e with
  | JNull | JBool _ | JNum _ => raise TypeError []
  | JStr (String a (String b EmptyString)) =>
      Ret (String a EmptyString, JStr (String b EmptyString))
  | JStr _ => raise ValueError []
  | JList [k; v] =>
      match k with
      | JStr s => Ret (s, v)
      | JList _ | JDict _ => raise TypeError []
      | JNull | JBool _ | JNum _ => OutOfModel
      end
  | JList _ => raise ValueError []
  | JDict [(k1, _); (k2, _)] => Ret (k1, JStr k2)
  | JDict _ => raise ValueError []
  end.

Fixpoint dict_update_pairs (l : list json) (acc : dict) : outcome dict :=
  match l with
  | [] => Ret acc
  | e :: l' => kv <- dict_pair e ;; dict_update_pairs l' (dict_set (fst kv) (snd kv) acc)
  end.

Definition dict_ctor (x : json) : outcome dict :=
  match x with
  | JDict d => Ret d
  | JList l => dict_update_pairs l []
  | JStr s => dict_update_pairs (map (fun c => JStr (String c EmptyString)) (list_ascii_of_string s)) []
  | JNull | JBool _ | JNum _ => raise TypeError []
  end.

(** [" ".join((a, b))]: both items must be strings. *)
Definition str_join2 (sep : string) (a b : json) : outcome json :=
  match a, b with
  | JStr x, JStr y => Ret (JStr (x ++ sep ++ y))
  | _, _ => raise TypeError []
  end.

(** ** [_replace_all_ofs] (lines 97-119) *)

(** [isinstance(a, list) and len(a) == 1] *)
Definition is_singleton_list (a : json) : bool :=
  match a with
  | JList [_] => true
  | _ => false
  end.

(** The exception of lines 110-112. *)
Definition allOf_error (received : json) : exn :=
  Exn ValueError [Lit "allOf expected to be a singleton list. Received "; Repr received].

(** The branch taken for a value [v] that is a dictionary with an
    [allOf] key (lines 102-112). *)
Definition merge_all_of (v : dict) : outcome json :=
  match dict_get "allOf" v with
  | Some (JList [member]) =>
      obj <- dict_ctor member ;;
      let obj := dict_set "title"
                   (dict_get_default "title" (dict_get_default "title" (JStr EmptyString) obj) v) obj in
      description <- str_join2 " " (dict_get_default "description" (JStr EmptyString) v)
                                   (dict_get_default "description" (JStr EmptyString) obj) ;;
      Ret (JDict (dict_set "description" description obj))
  | Some a => Raise (allOf_error a)
  | None => raise KeyError [Repr (JStr "allOf")]
  end.

(** [for k, v in schema.items(): new_schema[k] = body(v)] starting from
    the dictionary [new_schema]. *)
Definition for_items (body : json -> outcome json)
  : dict -> dict -> outcome dict :=
  fix loop (items new_schema : dict) : outcome dict :=
    match items with
    | [] => Ret new_schema
    | (k, v) :: rest => v' <- body v ;; loop rest (dict_set k v' new_schema)
    end.

(** The function is called on a Python object; an object that is not a
    dictionary has no [items] attribute. *)
Fixpoint _replace_all_ofs (schema : json) : outcome dict :=
  match schema with
  | JDict d =>
      for_items
        (fun v =>
           match v with
           | JDict vd =>
               if dict_mem "allOf" vd then merge_all_of vd
               else r <- _replace_all_ofs v ;; Ret (JDict r)
           | JList ((JDict _ :: _) as l) =>
               rs <- list_comp (fun s => r <- _replace_all_ofs s ;; Ret (JDict r)) l ;;
               Ret (JList rs)
           | _ => Ret v
           end) d []
  | _ => raise AttributeError []
  end.

(** ** [ParametersSchema] (lines 78-94)

    The class declares [title] and [definitions], both left out of the
    exported dictionary ([Field(exclude=True)]), the nested models
    [items] and [properties], and allows extra fields.  Its methods
    [parse_obj] and [dict] are those of [BaseModel] in version 1 of
    pydantic, which [langchain_core.pydantic_v1] provides; they are
    written out below for the class as it is declared.  A field is
    unset, set to [None], or set to a validated value. *)

Inductive setting (A : Type) : Type :=
| Unset
| SetNone
| SetTo (a : A).
Arguments Unset {A}.
Arguments SetNone {A}.
Arguments SetTo {A} a.

Unset Elimination Schemes.
Inductive ParametersSchema : Type := Build_ParametersSchema {
  title : setting string;
  definitions : option json;
  items : setting ParametersSchema;
  properties : setting (list (string * ParametersSchema));
  extra : dict
}.
Set Elimination Schemes.

(** Validation collects the errors of all the fields into one
    [ValidationError]. *)
Definition both {A B} (a : outcome A) (b : outcome B) : outcome (A * B) :=
  match a, b with
  | Ret x, Ret y => Ret (x, y)
  | Raise e, _ => Raise e
  | _, Raise e => Raise e
  | _, _ => OutOfModel
  end.

Fixpoint all_of {A} (l : list (outcome A)) : outcome (list A) :=
  match l with
  | [] => Ret []
  | c :: l' => p <- both c (all_of l') ;; Ret (fst p :: snd p)
  end.

(** The validator of [str]: a string is kept, a number is printed. *)
Definition str_validator (v : json) : outcome string :=
  match v with
  | JStr s => Ret s
  | JNum n => Ret (DecimalString.NilZero.string_of_int (Z.to_int n))
  | JBool b => Ret (if b then "True" else "False")
  | _ => raise ValidationError []
  end.

(** [Optional[T]]: [None] is accepted as such. *)
Definition optional {A} (validator : json -> outcome A) (v : json)
  : outcome (setting A) :=
  match v with
  | JNull => Ret SetNone
  | _ => a <- validator v ;; Ret (SetTo a)
  end.

(** A value that is not a dictionary where one is expected: the
    validators first try [dict(value)] and reject the value when that
    raises.  A non-dictionary that [dict] converts is left out of the
    model. *)
Definition not_a_dict {A} (v : json) : outcome A :=
  match dict_ctor v with
  | Raise _ => raise ValidationError []
  | _ => OutOfModel
  end.

(** [Dict[str, T]] *)
Definition mapping_validator {A} (validator : json -> outcome A) (v : json)
  : outcome (list (string * A)) :=
  match v with
  | JDict ps =>
      all_of ((fix go (ps : dict) : list (outcome (string * A)) :=
                 match ps with
                 | [] => []
                 | (k, x) :: ps' => (a <- validator x ;; Ret (k, a)) :: go ps'
                 end) ps)
  | _ => not_a_dict v
  end.

Definition declared_fields : list string :=
  ["title"; "definitions"; "items"; "properties"].

Definition is_declared (k : string) : bool :=
  existsb (String.eqb k) declared_fields.

(** The entries of the input that name no declared field. *)
Definition extra_fields (d : dict) : dict :=
  filter (fun kv => negb (is_declared (fst kv))) d.

(** A declared field absent from the input stays unset. *)
Definition field {A} (name : string) (unset : A) (results : list (string * outcome A))
  : outcome A :=
  match find (fun kr => String.eqb name (fst kr)) results with
  | Some (_, r) => r
  | None => Ret unset
  end.

Definition on_values {A} (f : json -> A) : dict -> list (string * A) :=
  fix go (d : dict) : list (string * A) :=
    match d with
    | [] => []
    | (k, v) :: d' => (k, f v) :: go d'
    end.

(** The extra fields become attributes of the model.  A name that
    hides a method or an attribute of [BaseModel] that is used
    afterwards ([dict], and the names that start with an underscore) is
    left out of the model. *)
Definition hides_attribute (k : string) : bool :=
  String.eqb k "dict"
  || match k with
     | String "_" _ => true
     | _ => false
     end.

(** [ParametersSchema.validate(value)]: a dictionary is passed to the
    constructor, which validates every declared field found in it and
    keeps the other entries as they are. *)
Fixpoint validate (value : json) : outcome ParametersSchema :=
  match value with
  | JDict d =>
      if existsb hides_attribute (keys d) then OutOfModel else
      p <- both
             (both (field "title" Unset (on_values (optional str_validator) d))
                   (field "definitions" None (on_values (fun v => Ret (Some v)) d)))
             (both (field "items" Unset (on_values (optional validate) d))
                   (field "properties" Unset
                      (on_values (optional (mapping_validator validate)) d))) ;;
      Ret (Build_ParametersSchema (fst (fst p)) (snd (fst p))
             (fst (snd p)) (snd (snd p)) (extra_fields d))
  | _ => not_a_dict value
  end.

(** [ParametersSchema.parse_obj(obj)] on a dictionary. *)
Definition parse_obj (obj : dict) : outcome ParametersSchema :=
  validate (JDict obj).

(** [model.dict(exclude_unset=True)]: the fields that were set, without
    the excluded ones, nested models exported the same way, followed by
    the extra fields.  (The library lists the extra fields in the
    iteration order of a set; the order kept here is the input's.) *)
Fixpoint model_dict (model : ParametersSchema) : dict :=
  ((match items model with
   | Unset => []
   | SetNone => [("items", JNull)]
   | SetTo m => [("items", JDict (model_dict m))]
   end)
  ++
  (match properties model with
   | Unset => []
   | SetNone => [("properties", JNull)]
   | SetTo ps =>
       [("properties",
         JDict ((fix go (ps : list (string * ParametersSchema)) : dict :=
                   match ps with
                   | [] => []
                   | (k, m) :: ps' => (k, JDict (model_dict m)) :: go ps'
                   end) ps))]
   end)
  ++ extra model)%list.

(** ** [_get_parameters_from_schema] (lines 122-138) *)

Section Parameters.
(** [dereference_refs] of [langchain_core.utils.json_schema]. *)
Variable dereference_refs : dict -> outcome dict.

Definition _get_parameters_from_schema (schema : dict) : outcome dict :=
  schema <- dereference_refs schema ;;
  schema <- _replace_all_ofs (JDict schema) ;;
  model <- parse_obj schema ;;
  Ret (model_dict model).
End Parameters.

(** ** Structured types and tools

    A structured type (a subclass of [BaseModel]) is used through two
    operations: [cls.schema()] and the constructor called on keyword
    arguments, which validates them and returns an instance or
    raises.  Two instances are equal when their fields are. *)

Record instance : Type := Instance { fields : dict }.

Record model_class : Type := ModelClass {
  model_schema : dict;
  model_init : dict -> outcome instance
}.

Record BaseTool : Type := Tool {
  name : string;
  description : option string;
  args_schema : option model_class
}.

(** [a or b] *)
Definition py_or (a : json) (b : outcome json) : outcome json :=
  if truthy a then Ret a else b.

Definition opt_str (s : option string) : json :=
  match s with
  | Some s => JStr s
  | None => JNull
  end.

Section Builders.
Variable dereference_refs : dict -> outcome dict.

(** Lines 19-28. *)
Definition _format_pydantic_to_vertex_function (pydantic_model : model_class)
  : outcome dict :=
  let schema := model_schema pydantic_model in
  name <- dict_item "title" schema ;;
  let description := dict_get_default "description" (JStr EmptyString) schema in
  parameters <- _get_parameters_from_schema dereference_refs schema ;;
  Ret [("name", name); ("description", description);
       ("parameters", JDict parameters)].

(** Lines 31-52.  A class object is true. *)
Definition _format_tool_to_vertex_function (tool : BaseTool) : outcome dict :=
  match args_schema tool with
  | Some cls =>
      let schema := model_schema cls in
      name <- py_or (JStr (name tool)) (dict_item "title" schema) ;;
      description <- py_or (opt_str (description tool))
                           (dict_item "description" schema) ;;
      parameters <- _get_parameters_from_schema dereference_refs schema ;;
      Ret [("name", name); ("description", description);
           ("parameters", JDict parameters)]
  | None =>
      Ret [("name", JStr (name tool));
           ("description", opt_str (description tool));
           ("parameters",
            JDict [("properties", JDict [("__arg1", JDict [("type", JStr "string")])]);
                   ("required", JList [JStr "__arg1"]);
                   ("type", JStr "object")])]
  end.
End Builders.

(** ** [PydanticFunctionsOutputParser] (lines 141-203) *)

(** The attribute [pydantic_schema]: one structured type, or a
    dictionary from function names to structured types. *)
Inductive pydantic_schema : Type :=
| OneModel (cls : model_class)
| ModelsByName (by_name : list (string * model_class)).

(** [self.pydantic_schema[function_name]] *)
Definition schema_item (by_name : list (string * model_class)) (function_name : json)
  : outcome model_class :=
  match function_name with
  | JStr s =>
      match find (fun kc => String.eqb s (fst kc)) by_name with
      | Some (_, cls) => Ret cls
      | None => raise KeyError [Repr function_name]
      end
  | JList _ | JDict _ => raise TypeError []
  | _ => raise KeyError [Repr function_name]
  end.

Section Parser.
(** [json.loads] on a string. *)
Variable json_loads : string -> outcome json.

Definition loads (s : json) : outcome json :=
  match s with
  | JStr text => json_loads text
  | _ => raise TypeError []
  end.

(** The constructor call on unpacked keyword arguments: the unpacked
    object must be a mapping. *)
Definition call_model (cls : model_class) (kwargs : json) : outcome instance :=
  match kwargs with
  | JDict d => model_init cls d
  | _ => raise TypeError []
  end.

Definition parse_result (self : pydantic_schema) (result : list generation)
  : outcome instance :=
  match result with
  | [] => raise IndexError []
  | ChatGeneration message :: _ =>
      let function_call :=
        dict_get_default "function_call" (JDict []) (additional_kwargs message) in
      if truthy function_call then
        match function_call with
        | JDict function_call =>
            function_name <- dict_item "name" function_call ;;
            let tool_input := dict_get_default "arguments" (JDict []) function_call in
            schema <- match self with
                      | ModelsByName by_name => schema_item by_name function_name
                      | OneModel cls => Ret cls
                      end ;;
            kwargs <- loads tool_input ;;
            call_model schema kwargs
        | _ => raise TypeError []
        end
      else
        raise OutputParserException
          [Lit "Could not parse function call: "; Str message]
  | _ :: _ =>
      raise ValueError [Lit "This output parser only works on ChatGeneration output"]
  end.

(** [parse] (lines 202-203). *)
Definition parse (self : pydantic_schema) (text : string) : outcome instance :=
  raise ValueError [Lit "Can only parse messages"].
End Parser.

(** ** A decoder for a subset of JSON texts

    [json.loads] belongs to the Python library and is a parameter of
    the parser above.  The decoder below instantiates it on the texts
    made of objects, arrays, strings without escapes, integers and the
    three literals; every other text, valid or not, is left out of the
    model. *)

Module JsonText.

Inductive token : Type :=
| TPunct (c : ascii)
| TStr (s : string)
| TInt (n : Z)
| TWord (s : string).

Inductive lex_mode : Type :=
| Plain
| InStr (acc : string)
| InNum (negative : bool) (digits : string)
| InWord (acc : string).

Definition is_digit (c : ascii) : bool :=
  (48 <=? nat_of_ascii c)%nat && (nat_of_ascii c <=? 57)%nat.

Definition is_lower (c : ascii) : bool :=
  (97 <=? nat_of_ascii c)%nat && (nat_of_ascii c <=? 122)%nat.

Definition is_space (c : ascii) : bool :=
  existsb (Nat.eqb (nat_of_ascii c)) [32; 9; 10; 13]%nat.

Definition is_punct (c : ascii) : bool :=
  existsb (Ascii.eqb c) ["{"; "}"; "["; "]"; ":"; ","]%char.

(** The double quote character. *)
Definition dquote : ascii := "034"%char.

Definition snoc (s : string) (c : ascii) : string := s ++ String c EmptyString.

Fixpoint digits_value (s : string) (acc : Z) : Z :=
  match s with
  | EmptyString => acc
  | String c s' => digits_value s' (10 * acc + Z.of_nat (nat_of_ascii c - 48))
  end.

(** An integer literal: at least one digit, no leading zero. *)
Definition int_token (negative : bool) (digits : string) : option token :=
  match digits with
  | EmptyString => None
  | String "0" (String _ _) => None
  | _ => Some (TInt (if negative then - digits_value digits 0
                     else digits_value digits 0))
  end.

(** A character met outside a string, a number and a word. *)
Definition lex_plain (c : ascii) : option (list token * lex_mode) :=
  if is_space c then Some ([], Plain)
  else if is_punct c then Some ([TPunct c], Plain)
  else if Ascii.eqb c dquote then Some ([], InStr EmptyString)
  else if Ascii.eqb c "-" then Some ([], InNum true EmptyString)
  else if is_digit c then Some ([], InNum false (String c EmptyString))
  else if is_lower c then Some ([], InWord (String c EmptyString))
  else None.

Definition emit (ts : list token) (rest : option (list token)) : option (list token) :=
  match rest with
  | Some r => Some (ts ++ r)%list
  | None => None
  end.

Fixpoint lex (text : string) (mode : lex_mode) : option (list token) :=
  match text with
  | EmptyString =>
      match mode with
      | Plain => Some []
      | InStr _ => None
      | InNum negative digits =>
          match int_token negative digits with
          | Some t => Some [t]
          | None => None
          end
      | InWord w => Some [TWord w]
      end
  | String c rest =>
      match mode with
      | Plain =>
          match lex_plain c with
          | Some (ts, mode') => emit ts (lex rest mode')
          | None => None
          end
      | InStr acc =>
          if Ascii.eqb c dquote then emit [TStr acc] (lex rest Plain)
          else if Ascii.eqb c "\" then None
          else if (nat_of_ascii c <? 32)%nat then None
          else lex rest (InStr (snoc acc c))
      | InNum negative digits =>
          if is_digit c then lex rest (InNum negative (snoc digits c))
          else
            match int_token negative digits, lex_plain c with
            | Some t, Some (ts, mode') => emit (t :: ts) (lex rest mode')
            | _, _ => None
            end
      | InWord w =>
          if is_lower c then lex rest (InWord (snoc w c))
          else
            match lex_plain c with
            | Some (ts, mode') => emit (TWord w :: ts) (lex rest mode')
            | None => None
            end
      end
  end.

Definition literal (w : string) : option json :=
  if String.eqb w "true" then Some (JBool true)
  else if String.eqb w "false" then Some (JBool false)
  else if String.eqb w "null" then Some JNull
  else None.

(** Recursive descent over the tokens; [fuel] bounds the depth.  A
    key met twice in an object keeps its place and takes the later
    value. *)
Fixpoint value (fuel : nat) (ts : list token) : option (json * list token) :=
  match fuel with
  | O => None
  | S fuel =>
      match ts with
      | TStr s :: r => Some (JStr s, r)
      | TInt n :: r => Some (JNum n, r)
      | TWord w :: r =>
          match literal w with
          | Some v => Some (v, r)
          | None => None
          end
      | TPunct "[" :: TPunct "]" :: r => Some (JList [], r)
      | TPunct "[" :: r =>
          match elements fuel r with
          | Some (vs, r') => Some (JList vs, r')
          | None => None
          end
      | TPunct "{" :: TPunct "}" :: r => Some (JDict [], r)
      | TPunct "{" :: r =>
          match members fuel r [] with
          | Some (d, r') => Some (JDict d, r')
          | None => None
          end
      | _ => None
      end
  end
with elements (fuel : nat) (ts : list token) : option (list json * list token) :=
  match fuel with
  | O => None
  | S fuel =>
      match value fuel ts with
      | Some (v, TPunct "," :: r) =>
          match elements fuel r with
          | Some (vs, r') => Some (v :: vs, r')
          | None => None
          end
      | Some (v, TPunct "]" :: r) => Some ([v], r)
      | _ => None
      end
  end
with members (fuel : nat) (ts : list token) (acc : dict) : option (dict * list token) :=
  match fuel with
  | O => None
  | S fuel =>
      match ts with
      | TStr k :: TPunct ":" :: r =>
          match value fuel r with
          | Some (v, TPunct "," :: r') => members fuel r' (dict_set k v acc)
          | Some (v, TPunct "}" :: r') => Some (dict_set k v acc, r')
          | _ => None
          end
      | _ => None
      end
  end.

Definition json_loads (text : string) : outcome json :=
  match lex text Plain with
  | Some ts =>
      match value (S (List.length ts)) ts with
      | Some (v, []) => Ret v
      | _ => OutOfModel
      end
  | None => OutOfModel
  end.

End JsonText.

(** ** Predicates on schemas *)

(** The body of the loop of [_replace_all_ofs] for one value [v]. *)
Definition replace_value (v : json) : outcome json :=
  match v with
  | JDict vd =>
      if dict_mem "allOf" vd then merge_all_of vd
      else r <- _replace_all_ofs v ;; Ret (JDict r)
  | JList ((JDict _ :: _) as l) =>
      rs <- list_comp (fun s => r <- _replace_all_ofs s ;; Ret (JDict r)) l ;;
      Ret (JList rs)
  | _ => Ret v
  end.

Fixpoint json_size (v : json) : nat :=
  match v with
  | JList l => S (fold_right (fun x n => json_size x + n) 0 l)
  | JDict d => S (fold_right (fun kv n => json_size (snd kv) + n) 0 d)
  | _ => 1
  end.

(** Some dictionary inside [v], or [v] itself, has an [allOf] key. *)
Fixpoint has_allOf (v : json) : bool :=
  match v with
  | JList l => existsb has_allOf l
  | JDict d => dict_mem "allOf" d || existsb (fun kv => has_allOf (snd kv)) d
  | _ => false
  end.

Fixpoint distinct (l : list string) : bool :=
  match l with
  | [] => true
  | k :: l' => negb (existsb (String.eqb k) l') && distinct l'
  end.

(** No dictionary inside [v] holds a key twice. *)
Fixpoint keys_unique (v : json) : bool :=
  match v with
  | JList l => forallb keys_unique l
  | JDict d => distinct (keys d) && forallb (fun kv => keys_unique (snd kv)) d
  | _ => true
  end.

Definition is_dict (v : json) : bool :=
  match v with
  | JDict _ => true
  | _ => false
  end.

(** A list that starts with a dictionary holds only dictionaries: a
    sequence of schemas. *)
Definition uniform (l : list json) : bool :=
  match l with
  | JDict _ :: _ => forallb is_dict l
  | _ => true
  end.

Fixpoint uniform_lists (v : json) : bool :=
  match v with
  | JList l => uniform l && forallb uniform_lists l
  | JDict d => forallb (fun kv => uniform_lists (snd kv)) d
  | _ => true
  end.

Definition str_or_absent (k : string) (d : dict) : bool :=
  match dict_get k d with
  | None | Some (JStr _) => true
  | _ => false
  end.

(** A dictionary with a one-element [allOf] has a dictionary as the
    member, and the descriptions of both are strings. *)
Definition combinator_typed (d : dict) : bool :=
  match dict_get "allOf" d with
  | Some (JList [JDict member]) =>
      str_or_absent "description" d && str_or_absent "description" member
  | Some (JList [_]) => false
  | _ => true
  end.

(** The typing of a JSON schema that the flattener relies on. *)
Fixpoint schema_typed (v : json) : bool :=
  match v with
  | JList l => uniform l && forallb schema_typed l
  | JDict d => combinator_typed d && forallb (fun kv => schema_typed (snd kv)) d
  | _ => true
  end.

(** A combinator whose one member is a dictionary with no [allOf]
    inside, and whose own title holds none either. *)
Definition combinator_resolved (vd : dict) : bool :=
  match dict_get "allOf" vd with
  | Some (JList [JDict member]) =>
      negb (has_allOf (JDict member))
      && negb (has_allOf (dict_get_default "title" JNull vd))
  | Some (JList [_]) => false
  | _ => true
  end.

(** Every [allOf] key of [schema] sits in a dictionary that is the
    value of a key the flattener visits: none at the top of a
    dictionary the flattener is called on, none in a value it copies,
    none inside the member of a combinator. *)
Fixpoint combinators_visited (schema : json) : bool :=
  match schema with
  | JDict d =>
      negb (dict_mem "allOf" d)
      && forallb
           (fun kv =>
              match snd kv with
              | JDict vd =>
                  if dict_mem "allOf" vd
                  then combinator_resolved vd
                  else combinators_visited (snd kv)
              | JList ((JDict _ :: _) as l) => forallb combinators_visited l
              | v => negb (has_allOf v)
              end) d
  | _ => true
  end.

(** [meets schema d]: the flattener called on [schema] calls itself on
    the dictionary [d]. *)
Inductive meets : json -> dict -> Prop :=
| meets_itself d : meets (JDict d) d
| meets_value d k vd d' :
    In (k, JDict vd) d -> dict_mem "allOf" vd = false ->
    meets (JDict vd) d' -> meets (JDict d) d'
| meets_element d k l s d' :
    In (k, JList l) d -> (exists x l', l = JDict x :: l') -> In s l ->
    meets s d' -> meets (JDict d) d'.

(** What the specification says of the parameter filter: [title] and
    [definitions] are gone, the schemas under [items] and [properties]
    are filtered the same way, every other key has the value it had,
    and a key absent from the input is absent from the output. *)
Inductive stripped : dict -> dict -> Prop :=
| stripped_schema d out :
    dict_get "title" out = None ->
    dict_get "definitions" out = None ->
    (forall k, is_declared k = false -> dict_get k out = dict_get k d) ->
    stripped_items (dict_get "items" d) (dict_get "items" out) ->
    stripped_properties (dict_get "properties" d) (dict_get "properties" out) ->
    stripped d out
with stripped_items : option json -> option json -> Prop :=
| items_absent : stripped_items None None
| items_none : stripped_items (Some JNull) (Some JNull)
| items_schema d out :
    stripped d out -> stripped_items (Some (JDict d)) (Some (JDict out))
with stripped_properties : option json -> option json -> Prop :=
| properties_absent : stripped_properties None None
| properties_none : stripped_properties (Some JNull) (Some JNull)
| properties_schemas ps outs :
    stripped_each ps outs ->
    stripped_properties (Some (JDict ps)) (Some (JDict outs))
with stripped_each : dict -> dict -> Prop :=
| each_nil : stripped_each [] []
| each_cons k d out ps outs :
    stripped d out -> stripped_each ps outs ->
    stripped_each ((k, JDict d) :: ps) ((k, JDict out) :: outs).

(** The inputs the filter validates: a [title] that is a string, a
    number or [None], schemas of the same kind under [items] and
    [properties], and no key that hides an attribute of the model. *)
Definition title_accepted (v : option json) : Prop :=
  match v with
  | Some (JList _) | Some (JDict _) => False
  | _ => True
  end.

Inductive validated : dict -> Prop :=
| validated_schema d :
    existsb hides_attribute (keys d) = false ->
    title_accepted (dict_get "title" d) ->
    validated_items (dict_get "items" d) ->
    validated_properties (dict_get "properties" d) ->
    validated d
with validated_items : option json -> Prop :=
| valid_items_absent : validated_items None
| valid_items_none : validated_items (Some JNull)
| valid_items_schema d : validated d -> validated_items (Some (JDict d))
with validated_properties : option json -> Prop :=
| valid_properties_absent : validated_properties None
| valid_properties_none : validated_properties (Some JNull)
| valid_properties_schemas ps :
    validated_each ps -> validated_properties (Some (JDict ps))
with validated_each : dict -> Prop :=
| valid_each_nil : validated_each []
| valid_each_cons k d ps :
    validated d -> validated_each ps -> validated_each ((k, JDict d) :: ps).

(** [dereference_refs] on a schema without references. *)
Definition no_refs (schema : dict) : outcome dict := Ret schema.

(** Python's [==] on values: dictionaries are compared as mappings,
    whatever the order of their keys, and [True] and [False] equal [1]
    and [0]. *)
Fixpoint json_eqb (a b : json) : bool :=
  match a, b with
  | JNull, JNull => true
  | JBool x, JBool y => Bool.eqb x y
  | JBool x, JNum n | JNum n, JBool x => Z.eqb n (if x then 1 else 0)
  | JNum n, JNum m => Z.eqb n m
  | JStr s, JStr t => String.eqb s t
  | JList l, JList l' =>
      (fix elems (l l' : list json) : bool :=
         match l, l' with
         | [], [] => true
         | x :: l, y :: l' => json_eqb x y && elems l l'
         | _, _ => false
         end) l l'
  | JDict d, JDict d' =>
      Nat.eqb (List.length d) (List.length d')
      && (fix entries (d : dict) : bool :=
            match d with
            | [] => true
            | (k, v) :: d =>
                match dict_get k d' with
                | Some v' => json_eqb v v' && entries d
                | None => false
                end
            end) d
  | _, _ => false
  end.

(** The example of the specification for a one-element [allOf]. *)
Definition merge_example : dict :=
  [("x", JDict [("allOf", JList [JDict [("type", JStr "string");
                                        ("description", JStr "d2")]]);
                ("title", JStr "T");
                ("description", JStr "d1")])].

Definition merge_example_expected : dict :=
  [("x", JDict [("type", JStr "string"); ("title", JStr "T");
                ("description", JStr "d1 d2")])].

(** Inputs on which the flattener leaves an [allOf] key in its output:
    a combinator inside the member of another one, and a combinator at
    the top level. *)
Definition nested_combinator : dict :=
  [("x", JDict [("allOf",
                 JList [JDict [("type", JStr "object");
                               ("properties",
                                JDict [("y", JDict [("allOf",
                                                     JList [JDict [("type", JStr "string")]])])])]])])].

Definition top_level_combinator : dict :=
  [("allOf", JList [JDict [("type", JStr "string")]])].

(** Inputs that hold a dictionary with an empty [allOf] and that the
    flattener accepts: the dictionary is listed in a sequence, or sits
    in a list that does not start with a dictionary. *)
Definition listed_empty_allOf : dict :=
  [("anyOf", JList [JDict [("allOf", JList [])]])].

Definition copied_empty_allOf : dict :=
  [("examples", JList [JNum 1; JDict [("x", JDict [("allOf", JList [])])]])].

(** A call returns, or raises the exception of a malformed [allOf]. *)
Definition returns_or_rejects {A} (c : outcome A) : Prop :=
  (exists x, c = Ret x)
  \/ (exists a, is_singleton_list a = false /\ c = Raise (allOf_error a)).

(** The parts of [model_dict] and of [mapping_validator], by name. *)
Definition export_items (i : setting ParametersSchema) : dict :=
  match i with
  | Unset => []
  | SetNone => [("items", JNull)]
  | SetTo m => [("items", JDict (model_dict m))]
  end.

Definition export_each (ps : list (string * ParametersSchema)) : dict :=
  map (fun km => (fst km, JDict (model_dict (snd km)))) ps.

Definition export_properties (p : setting (list (string * ParametersSchema))) : dict :=
  match p with
  | Unset => []
  | SetNone => [("properties", JNull)]
  | SetTo ps => [("properties", JDict (export_each ps))]
  end.

Definition validate_each (ps : dict) : list (outcome (string * ParametersSchema)) :=
  map (fun kx => a <- validate (snd kx) ;; Ret (fst kx, a)) ps.

(** A schema with a property named [title], a nested [items] schema
    and a key the class does not declare. *)
Definition filter_example : dict :=
  [("title", JStr "Outer");
   ("type", JStr "object");
   ("properties",
    JDict [("title", JDict [("title", JStr "Title"); ("type", JStr "string")]);
           ("tags", JDict [("title", JStr "Tags"); ("type", JStr "array");
                           ("items", JDict [("title", JStr "Tag");
                                            ("type", JStr "string")])])]);
   ("required", JList [JStr "title"]);
   ("definitions", JDict [])].

(** A dictionary with a two-element [allOf] under [properties]. *)
Definition two_member_allOf : dict :=
  [("type", JStr "object");
   ("properties",
    JDict [("p", JDict [("allOf", JList [JDict [("type", JStr "string")];
                                         JDict [("minLength", JNum 1)]])])])].

(** ** Example structured types *)

(** The validator of [int]: an integer is kept and a boolean counts as
    one; the conversion of a string is left out of the model. *)
Definition int_validator (v : json) : outcome Z :=
  match v with
  | JNum n => Ret n
  | JBool b => Ret (if b then 1 else 0)%Z
  | JStr _ => OutOfModel
  | _ => raise ValidationError []
  end.

(** A required field. *)
Definition required {A} (validator : json -> outcome A) (k : string) (kwargs : dict)
  : outcome A :=
  match dict_get k kwargs with
  | Some v => validator v
  | None => raise ValidationError []
  end.

(** The class [Cookie] of the docstring of the parser, with the fields
    [name: str] and [age: int]. *)
Definition Cookie : model_class :=
  {| model_schema :=
       [("title", JStr "Cookie");
        ("type", JStr "object");
        ("properties",
         JDict [("name", JDict [("title", JStr "Name"); ("type", JStr "string")]);
                ("age", JDict [("title", JStr "Age"); ("type", JStr "integer")])]);
        ("required", JList [JStr "name"; JStr "age"])];
     model_init := fun kwargs =>
       p <- both (required str_validator "name" kwargs)
                 (required int_validator "age" kwargs) ;;
       Ret (Instance [("name", JStr (fst p)); ("age", JNum (snd p))]) |}.

(** A class with one field [word: str] and a validator of that field
    that appends an exclamation mark. *)
Definition Shout : model_class :=
  {| model_schema :=
       [("title", JStr "Shout");
        ("type", JStr "object");
        ("properties",
         JDict [("word", JDict [("title", JStr "Word"); ("type", JStr "string")])]);
        ("required", JList [JStr "word"])];
     model_init := fun kwargs =>
       w <- required str_validator "word" kwargs ;;
       Ret (Instance [("word", JStr (w ++ "!"))]) |}.

Definition quoted (s : string) : string :=
  String JsonText.dquote (s ++ String JsonText.dquote EmptyString).

(** A chat generation whose message carries the function call [name]
    with the JSON text [arguments]. *)
Definition function_call_generation (name arguments : string) : generation :=
  ChatGeneration
    (Message EmptyString
       [("function_call", JDict [("name", JStr name); ("arguments", JStr arguments)])]).

(** The text of the docstring: an object with [name] and [age]. *)
Definition cookie_arguments : string :=
  "{" ++ quoted "name" ++ ": " ++ quoted "value" ++ ", " ++ quoted "age" ++ ": 10}".

Definition cookie : instance := Instance [("name", JStr "value"); ("age", JNum 10)].

(** The instance [Shout(word="a")] and the JSON text of its fields. *)
Definition shout : instance := Instance [("word", JStr "a!")].

Definition shout_arguments : string :=
  "{" ++ quoted "word" ++ ": " ++ quoted "a!" ++ "}".

(** A tool without a description whose argument schema has none. *)
Definition undescribed_tool : BaseTool :=
  {| name := "cookie_jar"; description := None; args_schema := Some Cookie |}.

(** A message without a function call, and one with an empty one. *)
Definition plain_message : message := Message "hello" [].

Definition empty_call_message : message :=
  Message "hello" [("function_call", JDict [])].

(** ** [_format_tools_to_vertex_tool] (lines 55-75)

    An entry of the list is a tool object, a structured type, or any
    other Python value, a dictionary among them. *)

Inductive tool_input : Type :=
| IsBaseTool (tool : BaseTool)
| IsModelClass (cls : model_class)
| IsValue (v : json).

(** The text of a value in an f-string: a string stands for itself,
    the other values print as their [repr]. *)
Definition str_piece (v : json) : piece :=
  match v with
  | JStr s => Lit s
  | _ => Repr v
  end.

Section ToolBundle.
Variable dereference_refs : dict -> outcome dict.

(** [FunctionDeclaration] and [Tool] of [vertexai.generative_models]:
    the first is called on the unpacked function description, the
    second on the list of declarations. *)
Variable declaration : Type.
Variable FunctionDeclaration : dict -> outcome declaration.
Variable vertex_tool : Type.
Variable VertexTool : list declaration -> outcome vertex_tool.

(** The [if] chain of lines 61-72, which gives [func].  The call of
    [_get_parameters_from_schema] on a value that is not a dictionary
    is left out of the model. *)
Definition format_tool (tool : tool_input) : outcome dict :=
  match tool with
  | IsBaseTool tool => _format_tool_to_vertex_function dereference_refs tool
  | IsModelClass cls => _format_pydantic_to_vertex_function dereference_refs cls
  | IsValue (JDict tool) =>
      name <- dict_item "name" tool ;;
      description <- dict_item "description" tool ;;
      schema <- dict_item "parameters" tool ;;
      parameters <- match schema with
                    | JDict schema => _get_parameters_from_schema dereference_refs schema
                    | _ => OutOfModel
                    end ;;
      Ret [("name", name); ("description", description);
           ("parameters", JDict parameters)]
  | IsValue v => raise ValueError [Lit "Unsupported tool call type "; str_piece v]
  end.

(** The loop of lines 60-73, from the declarations made so far. *)
Fixpoint declare_tools (tools : list tool_input) (function_declarations : list declaration)
  : outcome (list declaration) :=
  match tools with
  | [] => Ret function_declarations
  | tool :: rest =>
      func <- format_tool tool ;;
      d <- FunctionDeclaration func ;;
      declare_tools rest (function_declarations ++ [d])%list
  end.

Definition _format_tools_to_vertex_tool (tools : list tool_input)
  : outcome (list vertex_tool) :=
  function_declarations <- declare_tools tools [] ;;
  t <- VertexTool function_declarations ;;
  Ret [t].
End ToolBundle.

(** ** More predicates and examples *)

(** [declared tool d]: the entry [tool] is formatted and [d] is the
    declaration made of it. *)
Definition declared (dereference_refs : dict -> outcome dict) (declaration : Type)
    (FunctionDeclaration : dict -> outcome declaration)
    (tool : tool_input) (d : declaration) : Prop :=
  exists func, format_tool dereference_refs tool = Ret func
               /\ FunctionDeclaration func = Ret d.

(** A value the flattener copies: not a dictionary, and not a list
    that starts with one. *)
Definition copied (v : json) : bool :=
  match v with
  | JDict _ => false
  | JList (JDict _ :: _) => false
  | _ => true
  end.

(** The classes of the exceptions that leave the flattener. *)
Definition flattener_exception (e : exn) : bool :=
  match exn_class_of e with
  | ValueError | TypeError | AttributeError => true
  | _ => false
  end.

Definition returns_or_fails {A} (ok : exn -> bool) (c : outcome A) : Prop :=
  match c with
  | Raise e => ok e = true
  | _ => True
  end.

(** The structured type that [self] and the name of a function call
    select. *)
Definition selects (self : pydantic_schema) (function_name : json) (cls : model_class)
  : Prop :=
  match self with
  | OneModel c => c = cls
  | ModelsByName by_name => schema_item by_name function_name = Ret cls
  end.

(** An instance of the bundle builder in which a declaration is the
    function description itself and a tool is its list of
    declarations. *)
Definition declare_as_is (func : dict) : outcome dict := Ret func.

Definition bundle_as_is (function_declarations : list dict) : outcome (list dict) :=
  Ret function_declarations.

(** A schema in which a class with a described field of another class
    has been dereferenced. *)
Definition described_field_schema : dict :=
  [("title", JStr "Order");
   ("type", JStr "object");
   ("properties",
    JDict [("cookie",
            JDict [("title", JStr "Cookie");
                   ("description", JStr "The cookie");
                   ("default", JNull);
                   ("allOf", JList [JDict (model_schema Cookie)])]);
           ("count", JDict [("title", JStr "Count"); ("type", JStr "integer")])]);
   ("required", JList [JStr "cookie"])].

Definition Order : model_class :=
  {| model_schema := described_field_schema;
     model_init := fun kwargs => Ret (Instance kwargs) |}.

(** A list of entries of the three kinds, and a raw dictionary. *)
Definition raw_tool : dict :=
  [("name", JStr "n"); ("description", JStr "d");
   ("parameters",
    JDict [("title", JStr "T"); ("type", JStr "object"); ("properties", JDict [])])].

Definition example_tools : list tool_input :=
  [IsModelClass Cookie;
   IsValue (JDict raw_tool);
   IsBaseTool {| name := "search"; description := Some "Look it up";
                 args_schema := None |}].

(** The result of the flattener on that schema. *)
Definition flattened_described_field_schema : dict :=
  Eval vm_compute in
    match _replace_all_ofs (JDict described_field_schema) with
    | Ret out => out
    | _ => []
    end.

(** A structured type whose schema has a description, and a tool
    that has it as argument schema and no name or description. *)
Definition Jar : model_class :=
  {| model_schema := [("title", JStr "Jar"); ("description", JStr "A jar of cookies");
                      ("type", JStr "object"); ("properties", JDict [])];
     model_init := fun kwargs => Ret (Instance kwargs) |}.

Definition unnamed_tool : BaseTool :=
  {| name := EmptyString; description := None; args_schema := Some Jar |}.

(** * Properties *)

(** ** Outcomes *)

Lemma bind_Ret {A B} (c : outcome A) (k : A -> outcome B) (b : B) :
  bind c k = Ret b -> exists a, c = Ret a /\ k a = Ret b.
Proof.
  destruct c as [a| |]; simpl; intros H; try discriminate.
  exists a; split; [reflexivity | exact H].
Qed.

Lemma both_Ret {A B} (a : outcome A) (b : outcome B) (p : A * B) :
  both a b = Ret p -> a = Ret (fst p) /\ b = Ret (snd p).
Proof.
  destruct a, b; simpl; intros H; try discriminate.
  injection H as <-. split; reflexivity.
Qed.

Ltac bind_inv H :=
  let a := fresh "a" in
  let Ha := fresh "Ha" in
  apply bind_Ret in H; destruct H as [a [Ha H]].

(** ** Dictionaries *)

Lemma dict_get_set_same k v d : dict_get k (dict_set k v d) = Some v.
Proof.
  induction d as [|[k' v'] d IH]; simpl.
  - now rewrite String.eqb_refl.
  - destruct (String.eqb k k') eqn:E; simpl; rewrite E; auto.
Qed.

Lemma dict_get_set_other k k' v d :
  k <> k' -> dict_get k' (dict_set k v d) = dict_get k' d.
Proof.
  intros Hne. induction d as [|[k0 v0] d IH]; simpl.
  - destruct (String.eqb k' k) eqn:E; auto.
    apply String.eqb_eq in E. congruence.
  - destruct (String.eqb k k0) eqn:E; simpl.
    + apply String.eqb_eq in E. subst k0.
      destruct (String.eqb k' k) eqn:E'; auto.
      apply String.eqb_eq in E'. congruence.
    + now rewrite IH.
Qed.

Lemma dict_get_In k v d : dict_get k d = Some v -> In (k, v) d.
Proof.
  induction d as [|[k' v'] d IH]; simpl; [discriminate|].
  destruct (String.eqb k k') eqn:E.
  - apply String.eqb_eq in E. intros [= ->]. left. now subst.
  - intros H. right. auto.
Qed.

Lemma existsb_eqb_In k l : existsb (String.eqb k) l = true <-> In k l.
Proof.
  rewrite existsb_exists. split.
  - intros [x [Hx E]]. apply String.eqb_eq in E. now subst.
  - intros H. exists k. split; [exact H | apply String.eqb_refl].
Qed.

Lemma distinct_cons k l :
  distinct (k :: l) = true <-> ~ In k l /\ distinct l = true.
Proof.
  simpl. rewrite andb_true_iff, negb_true_iff. split.
  - intros [H1 H2]. split; [|exact H2].
    intros Hin. apply existsb_eqb_In in Hin. congruence.
  - intros [H1 H2]. split; [|exact H2].
    destruct (existsb (String.eqb k) l) eqn:E; [|reflexivity].
    apply existsb_eqb_In in E. tauto.
Qed.

Lemma dict_set_fresh k v d : ~ In k (keys d) -> dict_set k v d = (d ++ [(k, v)])%list.
Proof.
  induction d as [|[k' v'] d IH]; simpl; [reflexivity|].
  intros H. destruct (String.eqb k k') eqn:E.
  - apply String.eqb_eq in E. subst. tauto.
  - rewrite IH; tauto.
Qed.

Lemma keys_dict_set k v d x : In x (keys (dict_set k v d)) <-> x = k \/ In x (keys d).
Proof.
  induction d as [|[k' v'] d IH]; simpl.
  - intuition.
  - destruct (String.eqb k k') eqn:E; simpl.
    + apply String.eqb_eq in E. subst. intuition.
    + rewrite IH. intuition.
Qed.

Lemma dict_mem_keys k d : dict_mem k d = true <-> In k (keys d).
Proof.
  unfold dict_mem. split.
  - destruct (dict_get k d) eqn:E; [|discriminate].
    intros _. apply dict_get_In in E. apply (in_map fst) in E. exact E.
  - intros H. destruct (dict_get k d) eqn:E; [reflexivity|].
    exfalso. revert H E. induction d as [|[k' v'] d IH]; simpl; [tauto|].
    destruct (String.eqb k k') eqn:E'; [discriminate|].
    intros [->|H]; [now rewrite String.eqb_refl in E' | auto].
Qed.

Lemma distinct_app_fresh (acc : dict) k l :
  distinct (keys acc ++ k :: l) = true -> ~ In k (keys acc).
Proof.
  induction acc as [|[k1 v1] acc IH]; simpl; [tauto|].
  intros Hd. apply andb_true_iff in Hd. destruct Hd as [H1 H2].
  apply negb_true_iff in H1.
  intros [->|Hin]; [|now apply IH].
  assert (In k (keys acc ++ k :: l)) as Hin
      by (apply in_or_app; right; left; reflexivity).
  apply existsb_eqb_In in Hin. congruence.
Qed.

(** ** The loop over the items *)

Section ForItems.
Variable body : json -> outcome json.

Lemma for_items_each d : forall acc out,
  for_items body d acc = Ret out ->
  forall k v, In (k, v) d -> exists v', body v = Ret v'.
Proof.
  induction d as [|[k0 v0] d IH]; simpl; intros acc out H k v Hin; [tauto|].
  bind_inv H. destruct Hin as [[= <- <-]|Hin]; eauto.
Qed.

Lemma for_items_other d : forall acc out,
  for_items body d acc = Ret out ->
  forall k, ~ In k (keys d) -> dict_get k out = dict_get k acc.
Proof.
  induction d as [|[k0 v0] d IH]; simpl; intros acc out H k Hk.
  - now injection H as <-.
  - bind_inv H. rewrite (IH _ _ H) by tauto.
    apply dict_get_set_other. intros ->. tauto.
Qed.

Lemma for_items_get d : forall acc out,
  for_items body d acc = Ret out ->
  distinct (keys d) = true ->
  forall k v, In (k, v) d ->
  exists v', body v = Ret v' /\ dict_get k out = Some v'.
Proof.
  induction d as [|[k0 v0] d IH]; intros acc out H Hd k v Hin; [destruct Hin|].
  change (keys ((k0, v0) :: d)) with (k0 :: keys d) in Hd.
  apply distinct_cons in Hd. destruct Hd as [Hk0 Hd].
  simpl in H. bind_inv H. destruct Hin as [[= <- <-]|Hin].
  - exists a. split; [exact Ha|].
    rewrite (for_items_other _ _ _ H _ Hk0). apply dict_get_set_same.
  - eapply IH; eauto.
Qed.

Lemma for_items_keys d : forall acc out,
  for_items body d acc = Ret out ->
  forall k, In k (keys out) <-> In k (keys acc) \/ In k (keys d).
Proof.
  induction d as [|[k0 v0] d IH]; simpl; intros acc out H k.
  - injection H as <-. tauto.
  - bind_inv H. rewrite (IH _ _ H), keys_dict_set. intuition.
Qed.

Lemma for_items_same d : forall acc,
  (forall k v, In (k, v) d -> body v = Ret v) ->
  distinct (keys acc ++ keys d) = true ->
  for_items body d acc = Ret (acc ++ d)%list.
Proof.
  induction d as [|[k0 v0] d IH]; simpl; intros acc Hb Hd.
  - now rewrite app_nil_r.
  - rewrite (Hb k0 v0) by (now left). simpl.
    pose proof (distinct_app_fresh _ _ _ Hd) as Hfresh.
    rewrite (dict_set_fresh _ _ _ Hfresh), IH.
    + now rewrite <- app_assoc.
    + intros k v Hin. apply (Hb k). now right.
    + unfold keys. rewrite map_app. simpl. now rewrite <- app_assoc.
Qed.

Lemma for_items_unchanged d : forall acc out,
  (forall k v v', In (k, v) d -> body v = Ret v' -> v' = v) ->
  distinct (keys acc ++ keys d) = true ->
  for_items body d acc = Ret out -> out = (acc ++ d)%list.
Proof.
  induction d as [|[k0 v0] d IH]; simpl; intros acc out Hb Hd H.
  - injection H as <-. now rewrite app_nil_r.
  - bind_inv H. pose proof (distinct_app_fresh _ _ _ Hd) as Hfresh.
    rewrite (Hb k0 v0 a) in H by (auto; now left).
    rewrite (dict_set_fresh _ _ _ Hfresh) in H.
    apply IH in H.
    + now rewrite <- app_assoc in H.
    + intros k v v' Hin. apply (Hb k). now right.
    + unfold keys. rewrite map_app. simpl. now rewrite <- app_assoc.
Qed.
End ForItems.

Lemma _replace_all_ofs_items d :
  _replace_all_ofs (JDict d) = for_items replace_value d [].
Proof. reflexivity. Qed.

(** ** Induction on the size of a value *)

Lemma json_size_value k v d : In (k, v) d -> json_size v < json_size (JDict d).
Proof.
  simpl. induction d as [|[k' v'] d IH]; simpl; intros H; [tauto|].
  destruct H as [[= <- <-]|H]; [lia|]. apply IH in H. lia.
Qed.

Lemma json_size_element s l : In s l -> json_size s < json_size (JList l).
Proof.
  simpl. induction l as [|x l IH]; simpl; intros H; [tauto|].
  destruct H as [<-|H]; [lia|]. apply IH in H. lia.
Qed.

Lemma json_size_ind (Q : json -> Prop) :
  (forall v, (forall w, json_size w < json_size v -> Q w) -> Q v) ->
  forall v, Q v.
Proof.
  intros step v.
  assert (H : forall n w, json_size w < n -> Q w).
  { induction n as [|n IH]; intros w Hw; [lia|].
    apply step. intros u Hu. apply IH. lia. }
  apply (H (S (json_size v))). lia.
Qed.

(** ** Schemas without [allOf] *)

Lemma has_allOf_value k v d :
  has_allOf (JDict d) = false -> In (k, v) d -> has_allOf v = false.
Proof.
  simpl. intros H Hin. apply orb_false_iff in H. destruct H as [_ H].
  destruct (has_allOf v) eqn:E; [|reflexivity].
  rewrite <- H. symmetry. apply existsb_exists. exists (k, v). auto.
Qed.

Lemma has_allOf_element s l :
  has_allOf (JList l) = false -> In s l -> has_allOf s = false.
Proof.
  simpl. intros H Hin. destruct (has_allOf s) eqn:E; [|reflexivity].
  rewrite <- H. symmetry. apply existsb_exists. exists s. auto.
Qed.

Lemma has_allOf_top d : has_allOf (JDict d) = false -> dict_mem "allOf" d = false.
Proof. simpl. intros H. now apply orb_false_iff in H. Qed.

Lemma list_comp_same {A} (f : A -> outcome A) l :
  (forall x, In x l -> f x = Ret x) -> list_comp f l = Ret l.
Proof.
  induction l as [|x l IH]; simpl; intros H; [reflexivity|].
  rewrite (H x) by (now left). simpl. rewrite IH; [reflexivity|].
  intros y Hy. apply H. now right.
Qed.

Lemma replace_all_ofs_same : forall v d,
  v = JDict d ->
  has_allOf v = false -> keys_unique v = true -> uniform_lists v = true ->
  _replace_all_ofs v = Ret d.
Proof.
  induction v as [v IH] using json_size_ind. intros d -> Hno Hk Hu.
  rewrite _replace_all_ofs_items.
  simpl in Hk. apply andb_true_iff in Hk. destruct Hk as [Hd Hk].
  simpl in Hu. rewrite forallb_forall in Hk, Hu.
  apply (for_items_same replace_value d []); [|exact Hd].
  intros k v Hin.
  pose proof (has_allOf_value _ _ _ Hno Hin) as Hv.
  pose proof (Hk _ Hin) as Hkv. pose proof (Hu _ Hin) as Huv. simpl in Hkv, Huv.
  pose proof (json_size_value _ _ _ Hin) as Hsz.
  destruct v as [| | | |l|vd]; try reflexivity.
  - destruct l as [|x l']; [reflexivity|].
    destruct x as [| | | | |xd]; try reflexivity.
    unfold replace_value.
    rewrite (list_comp_same (fun s => r <- _replace_all_ofs s;; Ret (JDict r))
               (JDict xd :: l')); [reflexivity|].
    intros s Hs.
    change (uniform (JDict xd :: l') && forallb uniform_lists (JDict xd :: l') = true)
      in Huv.
    apply andb_true_iff in Huv. destruct Huv as [Hun Hul].
    unfold uniform in Hun. rewrite forallb_forall in Hun, Hul.
    pose proof (Hun _ Hs) as Hsd. destruct s as [| | | | |sd]; try discriminate.
    rewrite (IH (JDict sd)) with (d := sd); try reflexivity.
    + pose proof (json_size_element _ _ Hs). lia.
    + eapply has_allOf_element; eauto.
    + change (forallb keys_unique (JDict xd :: l') = true) in Hkv.
      rewrite forallb_forall in Hkv. auto.
    + auto.
  - unfold replace_value. rewrite (has_allOf_top _ Hv).
    rewrite (IH (JDict vd)) with (d := vd); auto.
Qed.

Lemma list_comp_unchanged {A} (f : A -> outcome A) l : forall rs,
  (forall x y, In x l -> f x = Ret y -> y = x) ->
  list_comp f l = Ret rs -> rs = l.
Proof.
  induction l as [|x l IH]; simpl; intros rs Hf H.
  - now injection H as <-.
  - bind_inv H. bind_inv H. injection H as <-.
    rewrite (Hf x a) by (auto; now left).
    f_equal. apply IH; [|exact Ha0].
    intros y z Hy. apply Hf. now right.
Qed.

Lemma replace_all_ofs_unchanged : forall v d out,
  v = JDict d ->
  has_allOf v = false -> keys_unique v = true ->
  _replace_all_ofs v = Ret out -> out = d.
Proof.
  induction v as [v IH] using json_size_ind. intros d out -> Hno Hk H.
  rewrite _replace_all_ofs_items in H.
  simpl in Hk. apply andb_true_iff in Hk. destruct Hk as [Hd Hk].
  rewrite forallb_forall in Hk.
  apply (for_items_unchanged replace_value d [] out) in H; [exact H| |exact Hd].
  intros k v v' Hin Hv'.
  pose proof (has_allOf_value _ _ _ Hno Hin) as Hv.
  pose proof (Hk _ Hin) as Hkv. simpl in Hkv.
  pose proof (json_size_value _ _ _ Hin) as Hsz.
  destruct v as [| | | |l|vd]; try (now injection Hv' as <-).
  - destruct l as [|x l']; [now injection Hv' as <-|].
    destruct x as [| | | | |xd]; try (now injection Hv' as <-).
    unfold replace_value in Hv'. bind_inv Hv'. injection Hv' as <-.
    f_equal. apply list_comp_unchanged in Ha; [exact Ha|].
    intros s y Hs Hy. bind_inv Hy. injection Hy as <-.
    destruct s as [| | | | |sd]; try discriminate.
    f_equal. apply (IH (JDict sd)); [| reflexivity | | | exact Ha0].
    + pose proof (json_size_element _ _ Hs). lia.
    + eapply has_allOf_element; eauto.
    + change (forallb keys_unique (JDict xd :: l') = true) in Hkv.
      rewrite forallb_forall in Hkv. auto.
  - unfold replace_value in Hv'. rewrite (has_allOf_top _ Hv) in Hv'.
    bind_inv Hv'. injection Hv' as <-. f_equal.
    apply (IH (JDict vd)); auto.
Qed.

(** C6.  On a schema with no [allOf] key at any level (a dictionary
    that, like every Python dictionary, holds no key twice at any
    level) the only result the flattener returns is the input itself,
    and it returns it whenever every list that starts with a schema is
    a list of schemas. *)
Theorem allOf_free_schema_unchanged (schema : dict) :
  has_allOf (JDict schema) = false ->
  keys_unique (JDict schema) = true ->
  (forall out, _replace_all_ofs (JDict schema) = Ret out -> out = schema)
  /\ (uniform_lists (JDict schema) = true ->
      _replace_all_ofs (JDict schema) = Ret schema).
Proof.
  intros Hno Hk. split.
  - intros out H. eapply replace_all_ofs_unchanged; eauto.
  - intros Hu. now apply replace_all_ofs_same.
Qed.

(** ** The branch of a one-element [allOf] *)

Lemma merge_all_of_Ret v obj :
  merge_all_of v = Ret obj ->
  exists member inner d1 d2,
    dict_get "allOf" v = Some (JList [member])
    /\ dict_ctor member = Ret inner
    /\ dict_get_default "description" (JStr EmptyString) v = JStr d1
    /\ dict_get_default "description" (JStr EmptyString) inner = JStr d2
    /\ obj = JDict (dict_set "description" (JStr (d1 ++ " " ++ d2))
                     (dict_set "title"
                        (dict_get_default "title"
                           (dict_get_default "title" (JStr EmptyString) inner) v)
                        inner)).
Proof.
  unfold merge_all_of. intros H.
  destruct (dict_get "allOf" v) as [a|]; [|discriminate].
  destruct a as [| | | |l|]; try discriminate.
  destruct l as [|member [|? ?]]; try discriminate.
  bind_inv H. bind_inv H. injection H as <-.
  unfold dict_get_default at 1 2 in Ha0.
  rewrite dict_get_set_other in Ha0 by discriminate.
  fold (dict_get_default "description" (JStr EmptyString) a) in Ha0.
  fold (dict_get_default "description" (JStr EmptyString) v) in Ha0.
  destruct (dict_get_default "description" (JStr EmptyString) v) as [| | |d1| |];
    try discriminate.
  destruct (dict_get_default "description" (JStr EmptyString) a) as [| | |d2| |] eqn:E2;
    try discriminate.
  injection Ha0 as <-.
  exists member, a, d1, d2. repeat split; auto.
Qed.

(** The flattener puts the result of the branch under the key of the
    combinator. *)
Lemma flattener_replaces schema out k v :
  distinct (keys schema) = true ->
  In (k, JDict v) schema ->
  dict_mem "allOf" v = true ->
  _replace_all_ofs (JDict schema) = Ret out ->
  exists obj, merge_all_of v = Ret obj /\ dict_get k out = Some obj.
Proof.
  intros Hd Hin Hm H. rewrite _replace_all_ofs_items in H.
  destruct (for_items_get _ _ _ _ H Hd _ _ Hin) as [obj [Hb Hg]].
  exists obj. split; [|exact Hg].
  unfold replace_value in Hb. now rewrite Hm in Hb.
Qed.

(** C4.  A value that is a dictionary whose [allOf] holds exactly one
    schema is replaced by that schema with [title] set to the outer
    title if present, else the inner title, else the empty string, and
    [description] set to the outer and inner descriptions joined by one
    space; the example of the specification flattens to a dictionary
    equal to the expected one. *)
Theorem singleton_allOf_merged :
  (forall schema out k v member,
     distinct (keys schema) = true ->
     In (k, JDict v) schema ->
     dict_get "allOf" v = Some (JList [JDict member]) ->
     _replace_all_ofs (JDict schema) = Ret out ->
     exists d1 d2,
       dict_get_default "description" (JStr EmptyString) v = JStr d1
       /\ dict_get_default "description" (JStr EmptyString) member = JStr d2
       /\ dict_get k out =
          Some (JDict (dict_set "description" (JStr (d1 ++ " " ++ d2))
                         (dict_set "title"
                            (dict_get_default "title"
                               (dict_get_default "title" (JStr EmptyString) member) v)
                            member))))
  /\ (exists out, _replace_all_ofs (JDict merge_example) = Ret out
                  /\ json_eqb (JDict out) (JDict merge_example_expected) = true).
Proof.
  split.
  - intros schema out k v member Hd Hin Ha H.
    assert (Hm : dict_mem "allOf" v = true) by (unfold dict_mem; now rewrite Ha).
    destruct (flattener_replaces _ _ _ _ Hd Hin Hm H) as [obj [Hobj Hg]].
    apply merge_all_of_Ret in Hobj.
    destruct Hobj as [member' [inner [d1 [d2 [Ha' [Hc [H1 [H2 ->]]]]]]]].
    rewrite Ha in Ha'. injection Ha' as <-. simpl in Hc. injection Hc as <-.
    exists d1, d2. auto.
  - eexists. split; reflexivity.
Qed.

Lemma singleton_allOf_merged_witness :
  exists d1 d2,
    dict_get_default "description" (JStr EmptyString)
      [("allOf", JList [JDict [("type", JStr "string"); ("description", JStr "d2")]]);
       ("title", JStr "T"); ("description", JStr "d1")] = JStr d1
    /\ dict_get_default "description" (JStr EmptyString)
         [("type", JStr "string"); ("description", JStr "d2")] = JStr d2
    /\ dict_get "x"
         [("x", JDict [("type", JStr "string"); ("description", JStr "d1 d2");
                       ("title", JStr "T")])] =
       Some (JDict (dict_set "description" (JStr (d1 ++ " " ++ d2))
                      (dict_set "title"
                         (dict_get_default "title"
                            (dict_get_default "title" (JStr EmptyString)
                               [("type", JStr "string"); ("description", JStr "d2")])
                            [("allOf", JList [JDict [("type", JStr "string");
                                                     ("description", JStr "d2")]]);
                             ("title", JStr "T"); ("description", JStr "d1")])
                         [("type", JStr "string"); ("description", JStr "d2")]))).
Proof.
  apply (proj1 singleton_allOf_merged merge_example _ "x"
           [("allOf", JList [JDict [("type", JStr "string"); ("description", JStr "d2")]]);
            ("title", JStr "T"); ("description", JStr "d1")]
           [("type", JStr "string"); ("description", JStr "d2")]).
  - reflexivity.
  - left. reflexivity.
  - reflexivity.
  - reflexivity.
Defined.

(** C10.  The dictionary that replaces a one-element [allOf] always
    has a [title] and a [description]; when neither the outer
    dictionary nor the member has them, the title is the empty string
    and the description is one space. *)
Theorem replacement_has_title_and_description schema out k v :
  distinct (keys schema) = true ->
  In (k, JDict v) schema ->
  dict_mem "allOf" v = true ->
  _replace_all_ofs (JDict schema) = Ret out ->
  exists obj,
    dict_get k out = Some (JDict obj)
    /\ dict_mem "title" obj = true
    /\ dict_mem "description" obj = true
    /\ (forall member inner,
          dict_get "allOf" v = Some (JList [member]) ->
          dict_ctor member = Ret inner ->
          dict_mem "title" v = false -> dict_mem "title" inner = false ->
          dict_mem "description" v = false -> dict_mem "description" inner = false ->
          dict_get "title" obj = Some (JStr EmptyString)
          /\ dict_get "description" obj = Some (JStr " ")).
Proof.
  intros Hd Hin Hm H.
  destruct (flattener_replaces _ _ _ _ Hd Hin Hm H) as [obj [Hobj Hg]].
  apply merge_all_of_Ret in Hobj.
  destruct Hobj as [member [inner [d1 [d2 [Ha [Hc [H1 [H2 ->]]]]]]]].
  eexists. split; [exact Hg|]. split; [|split].
  - unfold dict_mem. rewrite dict_get_set_other by discriminate.
    now rewrite dict_get_set_same.
  - unfold dict_mem. now rewrite dict_get_set_same.
  - intros member' inner' Ha' Hc' Htv Hti Hdv Hdi.
    rewrite Ha in Ha'. injection Ha' as <-.
    rewrite Hc in Hc'. injection Hc' as <-.
    unfold dict_mem, dict_get_default in *.
    destruct (dict_get "title" v); [discriminate|].
    destruct (dict_get "title" inner); [discriminate|].
    destruct (dict_get "description" v); [discriminate|].
    destruct (dict_get "description" inner); [discriminate|].
    injection H1 as <-. injection H2 as <-.
    rewrite dict_get_set_other by discriminate.
    rewrite !dict_get_set_same. split; reflexivity.
Qed.

Lemma replacement_has_title_and_description_witness :
  exists obj,
    dict_get "x" [("x", JDict [("title", JStr EmptyString); ("description", JStr " ")])]
    = Some (JDict obj)
    /\ dict_mem "title" obj = true
    /\ dict_mem "description" obj = true
    /\ (forall member inner,
          dict_get "allOf" [("allOf", JList [JDict []])] = Some (JList [member]) ->
          dict_ctor member = Ret inner ->
          dict_mem "title" [("allOf", JList [JDict []])] = false ->
          dict_mem "title" inner = false ->
          dict_mem "description" [("allOf", JList [JDict []])] = false ->
          dict_mem "description" inner = false ->
          dict_get "title" obj = Some (JStr EmptyString)
          /\ dict_get "description" obj = Some (JStr " ")).
Proof.
  apply (replacement_has_title_and_description
           [("x", JDict [("allOf", JList [JDict []])])] _ "x"
           [("allOf", JList [JDict []])]).
  - reflexivity.
  - left. reflexivity.
  - reflexivity.
  - reflexivity.
Defined.

Lemma allOf_free_schema_unchanged_witness :
  (forall out,
     _replace_all_ofs (JDict filter_example) = Ret out -> out = filter_example)
  /\ _replace_all_ofs (JDict filter_example) = Ret filter_example.
Proof.
  destruct (allOf_free_schema_unchanged filter_example eq_refl eq_refl) as [H1 H2].
  split; [exact H1 | apply H2; reflexivity].
Defined.

(** ** Where the flattener resolves the combinators *)

Lemma In_dict_set k v d kv :
  In kv (dict_set k v d) -> kv = (k, v) \/ In kv d.
Proof.
  induction d as [|[k0 v0] d IH]; simpl.
  - intros [<-|[]]. now left.
  - destruct (String.eqb k k0) eqn:E; simpl.
    + apply String.eqb_eq in E. subst k0. intros [<-|H]; auto.
    + intros [<-|H]; auto. apply IH in H. tauto.
Qed.

Lemma for_items_from body d : forall acc out,
  for_items body d acc = Ret out ->
  forall k v', In (k, v') out ->
  In (k, v') acc \/ exists v, In (k, v) d /\ body v = Ret v'.
Proof.
  induction d as [|[k0 v0] d IH]; simpl; intros acc out H k v' Hin.
  - injection H as <-. now left.
  - bind_inv H. destruct (IH _ _ H _ _ Hin) as [Hacc|[v [Hv Hb]]].
    + apply In_dict_set in Hacc. destruct Hacc as [[= -> ->]|Hacc]; [|now left].
      right. exists v0. auto.
    + right. exists v. auto.
Qed.

Lemma list_comp_In {A B} (f : A -> outcome B) l : forall rs,
  list_comp f l = Ret rs ->
  forall y, In y rs -> exists x, In x l /\ f x = Ret y.
Proof.
  induction l as [|x l IH]; simpl; intros rs H y Hy.
  - injection H as <-. destruct Hy.
  - bind_inv H. bind_inv H. injection H as <-.
    destruct Hy as [<-|Hy]; [exists x; auto|].
    destruct (IH _ Ha0 _ Hy) as [x' [Hx' Hf]]. exists x'. auto.
Qed.

Lemma has_allOf_dict d :
  has_allOf (JDict d) = false <->
  dict_mem "allOf" d = false /\ forall k v, In (k, v) d -> has_allOf v = false.
Proof.
  split.
  - intros H. split; [now apply has_allOf_top|].
    intros k v Hin. eapply has_allOf_value; eauto.
  - intros [Htop Hall]. simpl. rewrite Htop. simpl.
    destruct (existsb (fun kv => has_allOf (snd kv)) d) eqn:E; [|reflexivity].
    apply existsb_exists in E. destruct E as [[k v] [Hin Hv]].
    simpl in Hv. rewrite (Hall k v Hin) in Hv. discriminate.
Qed.

Lemma has_allOf_list l :
  has_allOf (JList l) = false <-> forall x, In x l -> has_allOf x = false.
Proof.
  split.
  - intros H x Hx. eapply has_allOf_element; eauto.
  - intros Hall. simpl.
    destruct (existsb has_allOf l) eqn:E; [|reflexivity].
    apply existsb_exists in E. destruct E as [x [Hin Hv]].
    rewrite (Hall x Hin) in Hv. discriminate.
Qed.

Lemma has_allOf_dict_set k x d :
  has_allOf (JDict d) = false -> has_allOf x = false -> k <> "allOf" ->
  has_allOf (JDict (dict_set k x d)) = false.
Proof.
  rewrite !has_allOf_dict. intros [Htop Hall] Hx Hk. split.
  - unfold dict_mem. rewrite dict_get_set_other by exact Hk. exact Htop.
  - intros k' v' Hin. apply In_dict_set in Hin.
    destruct Hin as [[= -> ->]|Hin]; eauto.
Qed.

Lemma merge_all_of_resolved vd obj :
  combinator_resolved vd = true ->
  merge_all_of vd = Ret obj -> has_allOf obj = false.
Proof.
  intros Hr H. apply merge_all_of_Ret in H.
  destruct H as [member [inner [d1 [d2 [Ha [Hc [H1 [H2 ->]]]]]]]].
  unfold combinator_resolved in Hr. rewrite Ha in Hr.
  destruct member as [| | | | |m]; try discriminate.
  simpl in Hc. injection Hc as <-.
  apply andb_true_iff in Hr. destruct Hr as [Hm Ht].
  apply negb_true_iff in Hm, Ht.
  apply has_allOf_dict_set; [|reflexivity|discriminate].
  apply has_allOf_dict_set; [exact Hm| |discriminate].
  unfold dict_get_default in *.
  destruct (dict_get "title" vd) as [t|]; [exact Ht|].
  destruct (dict_get "title" m) as [t|] eqn:Et; [|reflexivity].
  apply dict_get_In in Et. eapply has_allOf_value; eauto.
Qed.

Lemma replace_all_ofs_resolved : forall v d out,
  v = JDict d ->
  combinators_visited v = true ->
  _replace_all_ofs v = Ret out -> has_allOf (JDict out) = false.
Proof.
  induction v as [v IH] using json_size_ind. intros d out -> Hc H.
  rewrite _replace_all_ofs_items in H.
  simpl in Hc. apply andb_true_iff in Hc. destruct Hc as [Htop Hall].
  apply negb_true_iff in Htop. rewrite forallb_forall in Hall.
  apply has_allOf_dict. split.
  - destruct (dict_mem "allOf" out) eqn:E; [|reflexivity].
    apply dict_mem_keys in E. apply (for_items_keys _ _ _ _ H) in E.
    destruct E as [[]|E]. apply dict_mem_keys in E. congruence.
  - intros k v' Hin.
    destruct (for_items_from _ _ _ _ H _ _ Hin) as [[]|[v [Hv Hb]]].
    pose proof (Hall _ Hv) as Hcv. simpl in Hcv.
    pose proof (json_size_value _ _ _ Hv) as Hsz.
    assert (Hcopy : replace_value v = Ret v -> negb (has_allOf v) = true ->
                    has_allOf v' = false).
    { intros E Hn. rewrite E in Hb. injection Hb as <-. now apply negb_true_iff in Hn. }
    destruct v as [| | | |l|vd]; try (now apply Hcopy).
    + destruct l as [|x l']; [now apply Hcopy|].
      destruct x as [| | | | |xd]; try (now apply Hcopy).
      clear Hcopy.
      unfold replace_value in Hb. bind_inv Hb. injection Hb as <-.
      rewrite forallb_forall in Hcv.
      apply has_allOf_list. intros y Hy.
      destruct (list_comp_In _ _ _ Ha _ Hy) as [s [Hs Hf]].
      bind_inv Hf. injection Hf as <-.
      destruct s as [| | | | |sd]; try discriminate.
      apply (IH (JDict sd)) with (d := sd); auto.
      pose proof (json_size_element _ _ Hs). lia.
    + unfold replace_value in Hb.
      destruct (dict_mem "allOf" vd) eqn:Em.
      * eapply merge_all_of_resolved; eauto.
      * bind_inv Hb. injection Hb as <-.
        apply (IH (JDict vd)) with (d := vd); auto.
Qed.

(** C1, as the code has it.  When the flattener returns, its output
    has the keys of its input, so that an [allOf] key at the top level
    of the input is kept; the output holds no [allOf] key at any level
    when every [allOf] of the input is a key of a dictionary that is
    the value of a key the flattener visits (none at the top level of
    the input or of a listed schema, none in a list that does not
    start with a schema) and the member of every combinator is a
    dictionary that holds none. *)
Theorem allOf_resolved_where_visited (schema out : dict) :
  _replace_all_ofs (JDict schema) = Ret out ->
  (combinators_visited (JDict schema) = true -> has_allOf (JDict out) = false)
  /\ (forall k, dict_mem k out = dict_mem k schema).
Proof.
  intros H. split.
  - intros Hc. eapply replace_all_ofs_resolved; eauto.
  - intros k. rewrite _replace_all_ofs_items in H.
    pose proof (for_items_keys _ _ _ _ H k) as Hk.
    rewrite <- !dict_mem_keys in Hk.
    destruct (dict_mem k out), (dict_mem k schema); try reflexivity.
    + destruct Hk as [Hk _]. destruct (Hk eq_refl) as [E|E]; discriminate.
    + destruct Hk as [_ Hk]. apply Hk. now right.
Qed.

Lemma allOf_resolved_where_visited_witness :
  has_allOf (JDict [("x", JDict [("type", JStr "string");
                                 ("description", JStr "d1 d2");
                                 ("title", JStr "T")])]) = false
  /\ (forall k,
        dict_mem k [("x", JDict [("type", JStr "string");
                                 ("description", JStr "d1 d2");
                                 ("title", JStr "T")])]
        = dict_mem k merge_example).
Proof.
  destruct (allOf_resolved_where_visited merge_example _ eq_refl) as [H1 H2].
  split; [apply H1; reflexivity | exact H2].
Defined.

(** C1 as stated fails: the flattener accepts both inputs and leaves
    an [allOf] key in the output, inside the schema that replaced a
    combinator and at the top level. *)
Lemma allOf_left_unresolved :
  (exists out, _replace_all_ofs (JDict nested_combinator) = Ret out
               /\ has_allOf (JDict out) = true)
  /\ (exists out, _replace_all_ofs (JDict top_level_combinator) = Ret out
                  /\ has_allOf (JDict out) = true).
Proof.
  split; eexists; split; reflexivity.
Qed.

(** ** Malformed combinators *)

Lemma not_singleton_rejected v a :
  dict_get "allOf" v = Some a -> is_singleton_list a = false ->
  merge_all_of v = Raise (allOf_error a).
Proof.
  unfold merge_all_of. intros -> Ha.
  destruct a as [| | | |l|]; try reflexivity.
  destruct l as [|x [|y l]]; try reflexivity. discriminate.
Qed.

Lemma list_comp_each {A B} (f : A -> outcome B) l : forall rs,
  list_comp f l = Ret rs -> forall x, In x l -> exists y, f x = Ret y.
Proof.
  induction l as [|x l IH]; simpl; intros rs H z Hz; [destruct Hz|].
  bind_inv H. bind_inv H. destruct Hz as [<-|Hz]; eauto.
Qed.

Lemma met_malformed_never_returns schema d :
  meets schema d ->
  forall k v a,
    In (k, JDict v) d -> dict_get "allOf" v = Some a ->
    is_singleton_list a = false ->
    forall out, _replace_all_ofs schema <> Ret out.
Proof.
  induction 1 as [d|d k0 vd d' Hin Hm _ IH|d k0 l s d' Hin Hl Hs _ IH];
    intros k v a Hv Ha Hbad out H; rewrite _replace_all_ofs_items in H.
  - destruct (for_items_each _ _ _ _ H _ _ Hv) as [v' Hb].
    unfold replace_value, dict_mem in Hb. rewrite Ha in Hb.
    rewrite (not_singleton_rejected _ _ Ha Hbad) in Hb. discriminate.
  - destruct (for_items_each _ _ _ _ H _ _ Hin) as [v' Hb].
    unfold replace_value in Hb. rewrite Hm in Hb. bind_inv Hb.
    exact (IH _ _ _ Hv Ha Hbad _ Ha0).
  - destruct (for_items_each _ _ _ _ H _ _ Hin) as [v' Hb].
    destruct Hl as [x [l' ->]]. unfold replace_value in Hb. bind_inv Hb.
    destruct (list_comp_each _ _ _ Ha0 _ Hs) as [y Hy]. bind_inv Hy.
    exact (IH _ _ _ Hv Ha Hbad _ Ha1).
Qed.

Lemma returns_or_rejects_bind {A B} (c : outcome A) (k : A -> outcome B) :
  returns_or_rejects c -> (forall x, returns_or_rejects (k x)) ->
  returns_or_rejects (bind c k).
Proof.
  intros [[x ->]|[a [Ha ->]]] Hk; simpl; [apply Hk|].
  right. exists a. auto.
Qed.

Lemma returns_or_rejects_Ret {A} (x : A) : returns_or_rejects (Ret x).
Proof. left. now exists x. Qed.

Lemma for_items_returns_or_rejects body d :
  (forall k v, In (k, v) d -> returns_or_rejects (body v)) ->
  forall acc, returns_or_rejects (for_items body d acc).
Proof.
  induction d as [|[k0 v0] d IH]; simpl; intros Hb acc.
  - apply returns_or_rejects_Ret.
  - apply returns_or_rejects_bind; [apply (Hb k0); now left|].
    intros x. apply IH. intros k v Hin. apply (Hb k). now right.
Qed.

Lemma list_comp_returns_or_rejects {A B} (f : A -> outcome B) l :
  (forall x, In x l -> returns_or_rejects (f x)) ->
  returns_or_rejects (list_comp f l).
Proof.
  induction l as [|x l IH]; simpl; intros Hf.
  - apply returns_or_rejects_Ret.
  - apply returns_or_rejects_bind; [apply Hf; now left|].
    intros y. apply returns_or_rejects_bind.
    + apply IH. intros z Hz. apply Hf. now right.
    + intros ys. apply returns_or_rejects_Ret.
Qed.

Lemma merge_all_of_typed vd :
  dict_mem "allOf" vd = true -> combinator_typed vd = true ->
  returns_or_rejects (merge_all_of vd).
Proof.
  unfold dict_mem, combinator_typed. intros Hm Ht.
  destruct (dict_get "allOf" vd) as [a|] eqn:Ea; [|discriminate].
  destruct (is_singleton_list a) eqn:Es.
  - destruct a as [| | | |l|]; try discriminate.
    destruct l as [|member [|? ?]]; try discriminate.
    destruct member as [| | | | |m]; try discriminate.
    apply andb_true_iff in Ht. destruct Ht as [Ho Hi].
    unfold merge_all_of. rewrite Ea. simpl.
    unfold str_or_absent in Ho, Hi. unfold dict_get_default.
    rewrite dict_get_set_other by discriminate.
    destruct (dict_get "description" vd) as [[| | |d1| |]|]; try discriminate;
      destruct (dict_get "description" m) as [[| | |d2| |]|]; try discriminate;
      apply returns_or_rejects_Ret.
  - right. exists a. split; [exact Es|]. now apply not_singleton_rejected.
Qed.

Lemma replace_all_ofs_typed : forall v d,
  v = JDict d -> schema_typed v = true ->
  returns_or_rejects (_replace_all_ofs v).
Proof.
  induction v as [v IH] using json_size_ind. intros d -> Ht.
  rewrite _replace_all_ofs_items.
  simpl in Ht. apply andb_true_iff in Ht. destruct Ht as [_ Ht].
  rewrite forallb_forall in Ht.
  apply for_items_returns_or_rejects. intros k v Hin.
  pose proof (Ht _ Hin) as Hv. simpl in Hv.
  pose proof (json_size_value _ _ _ Hin) as Hsz.
  destruct v as [| | | |l|vd]; try apply returns_or_rejects_Ret.
  - destruct l as [|x l']; [apply returns_or_rejects_Ret|].
    destruct x as [| | | | |xd]; try apply returns_or_rejects_Ret.
    unfold replace_value.
    change (uniform (JDict xd :: l') && forallb schema_typed (JDict xd :: l') = true)
      in Hv.
    apply andb_true_iff in Hv. destruct Hv as [Hun Hty].
    unfold uniform in Hun. rewrite forallb_forall in Hun, Hty.
    apply returns_or_rejects_bind; [|intros; apply returns_or_rejects_Ret].
    apply list_comp_returns_or_rejects. intros s Hs.
    pose proof (Hun _ Hs) as Hsd. destruct s as [| | | | |sd]; try discriminate.
    apply returns_or_rejects_bind; [|intros; apply returns_or_rejects_Ret].
    apply (IH (JDict sd)) with (d := sd); auto.
    pose proof (json_size_element _ _ Hs). lia.
  - unfold replace_value.
    change (combinator_typed vd && forallb (fun kv => schema_typed (snd kv)) vd = true)
      in Hv.
    apply andb_true_iff in Hv. destruct Hv as [Hc Hty].
    destruct (dict_mem "allOf" vd) eqn:Em.
    + now apply merge_all_of_typed.
    + apply returns_or_rejects_bind; [|intros; apply returns_or_rejects_Ret].
      apply (IH (JDict vd)) with (d := vd); auto.
      simpl. now rewrite Hc, Hty.
Qed.




(** ** The parameter filter *)

Lemma field_on_values {A} name (unset : A) (f : json -> outcome A) d :
  field name unset (on_values f d) =
  match dict_get name d with
  | Some v => f v
  | None => Ret unset
  end.
Proof.
  unfold field. induction d as [|[k v] d IH]; simpl; [reflexivity|].
  destruct (String.eqb name k); [reflexivity | exact IH].
Qed.

Lemma not_a_dict_never_returns {A} v (a : A) : not_a_dict v <> Ret a.
Proof. unfold not_a_dict. destruct (dict_ctor v); discriminate. Qed.

Lemma mapping_validator_dict ps :
  mapping_validator validate (JDict ps) = all_of (validate_each ps).
Proof.
  unfold mapping_validator, validate_each. f_equal.
  induction ps as [|[k x] ps IH]; simpl; [reflexivity | now rewrite IH].
Qed.

Lemma model_dict_parts m :
  model_dict m =
  (export_items (items m) ++ export_properties (properties m) ++ extra m)%list.
Proof.
  destruct m as [t df i p e]. simpl. f_equal.
  destruct p as [| |ps]; try reflexivity. simpl. do 3 f_equal.
  induction ps as [|[k m] ps IH]; simpl; [reflexivity | now rewrite IH].
Qed.

Lemma dict_get_app k (a b : dict) :
  dict_get k (a ++ b)%list =
  match dict_get k a with
  | Some v => Some v
  | None => dict_get k b
  end.
Proof.
  induction a as [|[k' v'] a IH]; simpl; [reflexivity|].
  destruct (String.eqb k k'); [reflexivity | exact IH].
Qed.

Lemma dict_get_extra_fields k d :
  dict_get k (extra_fields d) = if is_declared k then None else dict_get k d.
Proof.
  unfold extra_fields. induction d as [|[k' v'] d IH]; simpl.
  - now destruct (is_declared k).
  - destruct (is_declared k') eqn:Ek'; simpl.
    + rewrite IH. destruct (String.eqb k k') eqn:E; [|reflexivity].
      apply String.eqb_eq in E. subst. now rewrite Ek'.
    + destruct (String.eqb k k') eqn:E; [|exact IH].
      apply String.eqb_eq in E. subst. now rewrite Ek'.
Qed.

Lemma validate_dict d :
  existsb hides_attribute (keys d) = false ->
  validate (JDict d) =
  p <- both
         (both (field "title" Unset (on_values (optional str_validator) d))
               (field "definitions" None (on_values (fun v => Ret (Some v)) d)))
         (both (field "items" Unset (on_values (optional validate) d))
               (field "properties" Unset
                  (on_values (optional (mapping_validator validate)) d))) ;;
  Ret (Build_ParametersSchema (fst (fst p)) (snd (fst p))
         (fst (snd p)) (snd (snd p)) (extra_fields d)).
Proof. intros H. cbn [validate]. now rewrite H. Qed.

Lemma all_of_Ret {A} (l : list (outcome A)) rs :
  all_of l = Ret rs -> Forall2 (fun c r => c = Ret r) l rs.
Proof.
  revert rs. induction l as [|c l IH]; simpl; intros rs H.
  - injection H as <-. constructor.
  - bind_inv H. injection H as <-. apply both_Ret in Ha. destruct Ha as [H1 H2].
    constructor; auto.
Qed.

Lemma validate_stripped : forall v m,
  validate v = Ret m -> exists d, v = JDict d /\ stripped d (model_dict m).
Proof.
  induction v as [v IH] using json_size_ind. intros m H.
  destruct v as [| | | | |d];
    try (exfalso; exact (not_a_dict_never_returns _ _ H)).
  exists d. split; [reflexivity|].
  destruct (existsb hides_attribute (keys d)) eqn:Eh;
    [cbn [validate] in H; rewrite Eh in H; discriminate|].
  rewrite (validate_dict _ Eh) in H. bind_inv H. injection H as <-.
  apply both_Ret in Ha. destruct Ha as [Hl Hr].
  apply both_Ret in Hr. destruct Hr as [Hi Hp].
  destruct a as [[t df] [i p]]. cbn [fst snd] in *. clear Hl.
  rewrite field_on_values in Hi. rewrite field_on_values in Hp.
  rewrite model_dict_parts. cbn [items properties extra].
  assert (Hout : forall k,
            dict_get k (export_items i ++ export_properties p ++ extra_fields d)%list =
            match dict_get k (export_items i) with
            | Some v => Some v
            | None =>
                match dict_get k (export_properties p) with
                | Some v => Some v
                | None => if is_declared k then None else dict_get k d
                end
            end).
  { intros k. now rewrite !dict_get_app, dict_get_extra_fields. }
  constructor.
  - rewrite Hout. now destruct i, p.
  - rewrite Hout. now destruct i, p.
  - intros k Hk. rewrite Hout, Hk.
    assert (k <> "items" /\ k <> "properties") as [Hki Hkp].
    { split; intros ->; discriminate. }
    apply String.eqb_neq in Hki, Hkp.
    destruct i, p; simpl; rewrite ?Hki, ?Hkp; reflexivity.
  - rewrite Hout.
    destruct (dict_get "items" d) as [v|] eqn:Ev.
    + pose proof (json_size_value _ _ _ (dict_get_In _ _ _ Ev)) as Hsz.
      destruct v as [| | | | |d'];
        try (exfalso; unfold optional in Hi; apply bind_Ret in Hi;
             destruct Hi as [? [Hn _]]; exact (not_a_dict_never_returns _ _ Hn)).
      * injection Hi as <-. constructor.
      * unfold optional in Hi. bind_inv Hi. injection Hi as <-.
        destruct (IH _ Hsz _ Ha) as [d0 [[= <-] Hs]].
        simpl. now constructor.
    + injection Hi as <-. simpl. destruct p; constructor.
  - rewrite Hout.
    destruct (dict_get "properties" d) as [v|] eqn:Ev.
    + pose proof (json_size_value _ _ _ (dict_get_In _ _ _ Ev)) as Hsz.
      destruct v as [| | | | |ps];
        try (exfalso; unfold optional in Hp; apply bind_Ret in Hp;
             destruct Hp as [? [Hn _]]; exact (not_a_dict_never_returns _ _ Hn)).
      * injection Hp as <-. destruct i; constructor.
      * unfold optional in Hp. bind_inv Hp. injection Hp as <-.
        rewrite mapping_validator_dict in Ha. apply all_of_Ret in Ha.
        assert (Hs : stripped_each ps (export_each a)).
        { assert (Hel : forall k x, In (k, x) ps -> json_size x < json_size (JDict d)).
          { intros k x Hx. pose proof (json_size_value _ _ _ Hx). lia. }
          clear - IH Ha Hel. revert a Ha.
          induction ps as [|[k x] ps IHps]; simpl; intros a Ha.
          - inversion Ha. constructor.
          - inversion Ha as [|c r l rs Hc Hrest]; subst. bind_inv Hc.
            injection Hc as <-.
            destruct (IH x (Hel k x (or_introl eq_refl)) _ Ha0) as [dx [-> Hsx]].
            simpl. constructor; [exact Hsx|].
            apply IHps; [|exact Hrest].
            intros k' x' Hx'. apply (Hel k'). now right. }
        destruct i; simpl; now constructor.
    + injection Hp as <-. simpl. destruct i; constructor.
Qed.

Lemma all_of_returns {A} (l : list (outcome A)) :
  Forall (fun c => exists r, c = Ret r) l -> exists rs, all_of l = Ret rs.
Proof.
  induction 1 as [|c l [r ->] _ [rs IH]]; simpl; [now exists []|].
  rewrite IH. simpl. now exists (r :: rs).
Qed.

Lemma validate_returns : forall v d,
  v = JDict d -> validated d -> exists m, validate v = Ret m.
Proof.
  induction v as [v IH] using json_size_ind. intros d -> Hv.
  destruct Hv as [d Hh Ht Hi Hp].
  rewrite (validate_dict _ Hh).
  assert (Et : exists t, field "title" Unset (on_values (optional str_validator) d)
                         = Ret t).
  { rewrite field_on_values. unfold title_accepted in Ht.
    destruct (dict_get "title" d) as [[| | | | |]|]; simpl; eauto; tauto. }
  assert (Ed : exists df, field "definitions" None (on_values (fun v => Ret (Some v)) d)
                          = Ret df).
  { rewrite field_on_values. destruct (dict_get "definitions" d); eauto. }
  assert (Ei : exists i, field "items" Unset (on_values (optional validate) d) = Ret i).
  { rewrite field_on_values.
    destruct (dict_get "items" d) as [v|] eqn:Ev; [|eauto].
    pose proof (json_size_value _ _ _ (dict_get_In _ _ _ Ev)) as Hsz.
    inversion Hi as [| |d' Hd']; subst; [simpl; eauto|].
    destruct (IH _ Hsz d' eq_refl Hd') as [m Hm].
    unfold optional. rewrite Hm. simpl. eauto. }
  assert (Ep : exists p, field "properties" Unset
                           (on_values (optional (mapping_validator validate)) d)
                         = Ret p).
  { rewrite field_on_values.
    destruct (dict_get "properties" d) as [v|] eqn:Ev; [|eauto].
    pose proof (json_size_value _ _ _ (dict_get_In _ _ _ Ev)) as Hsz.
    inversion Hp as [| |ps Hps]; subst; [simpl; eauto|].
    unfold optional. rewrite mapping_validator_dict.
    destruct (all_of_returns (validate_each ps)) as [rs Hrs]; [|rewrite Hrs; simpl; eauto].
    assert (Hel : forall k x, In (k, x) ps -> json_size x < json_size (JDict d)).
    { intros k x Hx. pose proof (json_size_value _ _ _ Hx). lia. }
    clear - IH Hps Hel.
    induction Hps as [|k dx ps Hdx _ IHps]; cbn [validate_each map]; constructor.
    - destruct (IH _ (Hel k _ (or_introl eq_refl)) dx eq_refl Hdx) as [m Hm].
      cbn [fst snd]. rewrite Hm. simpl. eauto.
    - apply IHps. intros k' x' Hx'. apply (Hel k'). now right. }
  destruct Et as [t ->], Ed as [df ->], Ei as [i ->], Ep as [p ->]. simpl. eauto.
Qed.



(** ** The result parser *)

(** C7.  On a list that starts with a chat generation whose message
    has no function call, [parse_result] raises the
    [OutputParserException] whose text ends with the message. *)
Theorem no_function_call_raises (json_loads : string -> outcome json)
    (self : pydantic_schema) (message : message) (rest : list generation) :
  dict_get "function_call" (additional_kwargs message) = None ->
  exists e,
    parse_result json_loads self (ChatGeneration message :: rest) = Raise e
    /\ exn_class_of e = OutputParserException
    /\ exn_text e = [Lit "Could not parse function call: "; Str message].
Proof.
  intros H. unfold parse_result, dict_get_default. rewrite H. simpl.
  eexists. repeat split.
Qed.

Lemma no_function_call_raises_witness :
  exists e,
    parse_result JsonText.json_loads (OneModel Cookie)
      [ChatGeneration plain_message] = Raise e
    /\ exn_class_of e = OutputParserException
    /\ exn_text e = [Lit "Could not parse function call: "; Str plain_message].
Proof.
  apply (no_function_call_raises JsonText.json_loads (OneModel Cookie) plain_message []).
  reflexivity.
Defined.

(** C9.  The function call is tested for truth: a message whose
    [function_call] is the empty dictionary, or any other false value,
    gets the exception of a message without one, and neither the name
    nor the arguments are read. *)
Theorem empty_function_call_raises (json_loads : string -> outcome json)
    (self : pydantic_schema) (message : message) (rest : list generation)
    (function_call : json) :
  dict_get "function_call" (additional_kwargs message) = Some function_call ->
  function_call = JDict [] \/ truthy function_call = false ->
  exists e,
    parse_result json_loads self (ChatGeneration message :: rest) = Raise e
    /\ exn_class_of e = OutputParserException
    /\ exn_text e = [Lit "Could not parse function call: "; Str message].
Proof.
  intros H Hf. unfold parse_result, dict_get_default. rewrite H.
  assert (Ht : truthy function_call = false) by (destruct Hf as [->|Hf]; auto).
  rewrite Ht. eexists. repeat split.
Qed.

Lemma empty_function_call_raises_witness :
  exists e,
    parse_result JsonText.json_loads (OneModel Cookie)
      [ChatGeneration empty_call_message] = Raise e
    /\ exn_class_of e = OutputParserException
    /\ exn_text e = [Lit "Could not parse function call: "; Str empty_call_message].
Proof.
  apply (empty_function_call_raises JsonText.json_loads (OneModel Cookie)
           empty_call_message [] (JDict [])).
  - reflexivity.
  - left. reflexivity.
Defined.

(** ** The builders *)

(** C8.  For a tool with an argument schema and no description, or an
    empty one, the builder reads the [description] of the schema
    without a default: it raises [KeyError] when the schema has none,
    and gives the description of the schema when it has one; the
    builder for a structured type gives the empty string when the
    schema has none. *)
Theorem tool_description_has_no_default (dereference_refs : dict -> outcome dict) :
  (forall tool cls,
     args_schema tool = Some cls ->
     description tool = None \/ description tool = Some EmptyString ->
     dict_get "description" (model_schema cls) = None ->
     exists key,
       _format_tool_to_vertex_function dereference_refs tool
       = Raise (Exn KeyError [Repr (JStr key)]))
  /\ (forall tool cls d fd,
        args_schema tool = Some cls ->
        description tool = None \/ description tool = Some EmptyString ->
        dict_get "description" (model_schema cls) = Some d ->
        _format_tool_to_vertex_function dereference_refs tool = Ret fd ->
        dict_get "description" fd = Some d)
  /\ (forall cls fd,
        dict_get "description" (model_schema cls) = None ->
        _format_pydantic_to_vertex_function dereference_refs cls = Ret fd ->
        dict_get "description" fd = Some (JStr EmptyString)).
Proof.
  split; [|split].
  - intros tool cls Ha Hd Hs. unfold _format_tool_to_vertex_function. rewrite Ha.
    assert (Hf : truthy (opt_str (description tool)) = false)
      by (destruct Hd as [-> | ->]; reflexivity).
    unfold py_or at 2. rewrite Hf. unfold dict_item at 2. rewrite Hs.
    destruct (py_or (JStr (name tool)) (dict_item "title" (model_schema cls)))
      as [n|e|] eqn:En.
    + exists "description". reflexivity.
    + exists "title". simpl. unfold py_or in En.
      destruct (truthy (JStr (name tool))); [discriminate|].
      unfold dict_item in En.
      destruct (dict_get "title" (model_schema cls)); [discriminate|].
      injection En as <-. reflexivity.
    + unfold py_or in En.
      destruct (truthy (JStr (name tool))); [discriminate|].
      unfold dict_item in En.
      destruct (dict_get "title" (model_schema cls)); discriminate.
  - intros tool cls d fd Ha Hd Hs H.
    unfold _format_tool_to_vertex_function in H. rewrite Ha in H.
    assert (Hf : truthy (opt_str (description tool)) = false)
      by (destruct Hd as [-> | ->]; reflexivity).
    unfold py_or at 2 in H. rewrite Hf in H. unfold dict_item at 2 in H.
    rewrite Hs in H. bind_inv H. cbn [bind] in H. bind_inv H.
    now injection H as <-.
  - intros cls fd Hs H. unfold _format_pydantic_to_vertex_function in H.
    bind_inv H. bind_inv H. injection H as <-.
    unfold dict_get_default. rewrite Hs. reflexivity.
Qed.

Lemma tool_description_has_no_default_witness :
  (exists key,
     _format_tool_to_vertex_function no_refs undescribed_tool
     = Raise (Exn KeyError [Repr (JStr key)]))
  /\ dict_get "description"
       [("name", JStr "Cookie"); ("description", JStr EmptyString);
        ("parameters",
         JDict [("properties",
                 JDict [("name", JDict [("type", JStr "string")]);
                        ("age", JDict [("type", JStr "integer")])]);
                ("type", JStr "object");
                ("required", JList [JStr "name"; JStr "age"])])]
     = Some (JStr EmptyString).
Proof.
  destruct (tool_description_has_no_default no_refs) as [H1 [_ H2]]. split.
  - apply (H1 undescribed_tool Cookie); [reflexivity | left; reflexivity | reflexivity].
  - apply (H2 Cookie); reflexivity.
Defined.

(** ** Round trip *)

(** C3, as the code has it.  For a structured type that the builder
    accepts and that builds, from the fields of an instance, that
    instance again, [parse_result] on a chat generation whose function
    call carries the name of the function description and a JSON text
    of the fields of the instance returns the instance; the parser
    holds the type itself or a dictionary that has it under that
    name. *)
Theorem round_trip (json_loads : string -> outcome json)
    (dereference_refs : dict -> outcome dict)
    (self : pydantic_schema) (cls : model_class) (original : instance)
    (fd function_call : dict) (function_name : json) (arguments : string)
    (message : message) (rest : list generation) :
  _format_pydantic_to_vertex_function dereference_refs cls = Ret fd ->
  dict_get "name" fd = Some function_name ->
  (self = OneModel cls
   \/ exists by_name, self = ModelsByName by_name
                      /\ schema_item by_name function_name = Ret cls) ->
  dict_get "function_call" (additional_kwargs message) = Some (JDict function_call) ->
  dict_get "name" function_call = Some function_name ->
  dict_get "arguments" function_call = Some (JStr arguments) ->
  json_loads arguments = Ret (JDict (fields original)) ->
  model_init cls (fields original) = Ret original ->
  dict_get "title" (model_schema cls) = Some function_name
  /\ parse_result json_loads self (ChatGeneration message :: rest) = Ret original.
Proof.
  intros Hfd Hname Hself Hfc Hn Ha Hloads Hinit. split.
  - unfold _format_pydantic_to_vertex_function in Hfd.
    bind_inv Hfd. bind_inv Hfd. injection Hfd as <-.
    simpl in Hname. injection Hname as ->.
    unfold dict_item in Ha0.
    destruct (dict_get "title" (model_schema cls)); [|discriminate].
    now injection Ha0 as ->.
  - unfold parse_result, dict_get_default. rewrite Hfc.
    assert (Ht : truthy (JDict function_call) = true).
    { destruct function_call; [discriminate | reflexivity]. }
    rewrite Ht. unfold dict_item. rewrite Hn, Ha. cbn [bind].
    assert (Hs : match self with
                 | OneModel c => Ret c
                 | ModelsByName by_name => schema_item by_name function_name
                 end = Ret cls).
    { destruct Hself as [-> | [by_name [-> Hs]]]; [reflexivity | exact Hs]. }
    rewrite Hs. cbn [bind loads]. rewrite Hloads. cbn [bind call_model].
    exact Hinit.
Qed.

Lemma round_trip_witness :
  dict_get "title" (model_schema Cookie) = Some (JStr "Cookie")
  /\ parse_result JsonText.json_loads (ModelsByName [("Cookie", Cookie); ("Shout", Shout)])
       [function_call_generation "Cookie" cookie_arguments] = Ret cookie.
Proof.
  eapply (round_trip JsonText.json_loads no_refs
            (ModelsByName [("Cookie", Cookie); ("Shout", Shout)]) Cookie cookie
            _ [("name", JStr "Cookie"); ("arguments", JStr cookie_arguments)]
            (JStr "Cookie") cookie_arguments).
  - reflexivity.
  - reflexivity.
  - right. eexists. split; reflexivity.
  - reflexivity.
  - reflexivity.
  - reflexivity.
  - reflexivity.
  - reflexivity.
Defined.

(** C3 as stated fails.  With the dictionary of the docstring, which
    has [Cookie] under [cookie], the call named after the function
    description of [Cookie] raises [KeyError].  And the builder accepts
    [Shout], the text is the JSON encoding of the fields of the
    instance [Shout(word="a")], and [parse_result] returns an instance
    that is not equal to it. *)
Lemma round_trip_fails :
  ((exists fd, _format_pydantic_to_vertex_function no_refs Cookie = Ret fd
               /\ dict_get "name" fd = Some (JStr "Cookie"))
   /\ model_init Cookie (fields cookie) = Ret cookie
   /\ JsonText.json_loads cookie_arguments = Ret (JDict (fields cookie))
   /\ parse_result JsonText.json_loads (ModelsByName [("cookie", Cookie)])
        [function_call_generation "Cookie" cookie_arguments]
      = raise KeyError [Repr (JStr "Cookie")])
  /\ ((exists fd, _format_pydantic_to_vertex_function no_refs Shout = Ret fd
                  /\ dict_get "name" fd = Some (JStr "Shout"))
      /\ model_init Shout [("word", JStr "a")] = Ret shout
      /\ JsonText.json_loads shout_arguments = Ret (JDict (fields shout))
      /\ exists parsed,
           parse_result JsonText.json_loads (OneModel Shout)
             [function_call_generation "Shout" shout_arguments] = Ret parsed
           /\ json_eqb (JDict (fields parsed)) (JDict (fields shout)) = false).
Proof.
  split.
  - split; [eexists; split; reflexivity|]. repeat split.
  - split; [eexists; split; reflexivity|].
    split; [reflexivity|]. split; [reflexivity|].
    eexists. split; reflexivity.
Qed.

(** ** The examples of the specification *)

(** A raw dictionary's [parameters] lose their title. *)
Example raw_parameters_example :
  exists out,
    _get_parameters_from_schema no_refs
      [("title", JStr "T"); ("type", JStr "object"); ("properties", JDict [])] = Ret out
    /\ json_eqb (JDict out) (JDict [("type", JStr "object"); ("properties", JDict [])])
       = true.
Proof. eexists. split; reflexivity. Qed.

(** A tool without an argument schema takes one string argument. *)
Example tool_without_args_schema :
  _format_tool_to_vertex_function no_refs
    {| name := "search"; description := Some "Look it up"; args_schema := None |}
  = Ret [("name", JStr "search"); ("description", JStr "Look it up");
         ("parameters",
          JDict [("properties", JDict [("__arg1", JDict [("type", JStr "string")])]);
                 ("required", JList [JStr "__arg1"]);
                 ("type", JStr "object")])].
Proof. reflexivity. Qed.

(** The call of the docstring, with the dictionary of the docstring. *)
Example docstring_parse_result :
  parse_result JsonText.json_loads (ModelsByName [("cookie", Cookie)])
    [function_call_generation "cookie" cookie_arguments] = Ret cookie.
Proof. reflexivity. Qed.

(** A generation that is not a chat generation is refused. *)
Example wrong_generation_kind :
  parse_result JsonText.json_loads (OneModel Cookie) [Generation "text"]
  = raise ValueError [Lit "This output parser only works on ChatGeneration output"].
Proof. reflexivity. Qed.

(** A name the dictionary of the parser does not hold. *)
Example missing_schema_mapping :
  parse_result JsonText.json_loads (ModelsByName [("cookie", Cookie)])
    [function_call_generation "dog" cookie_arguments]
  = raise KeyError [Repr (JStr "dog")].
Proof. reflexivity. Qed.

(** * Further properties *)

(** ** The tool bundle *)

Section ToolBundleFacts.
Variable dereference_refs : dict -> outcome dict.
Variable declaration : Type.
Variable FunctionDeclaration : dict -> outcome declaration.
Variable vertex_tool : Type.
Variable VertexTool : list declaration -> outcome vertex_tool.

Lemma declare_tools_Ret tools : forall acc decls,
  declare_tools dereference_refs declaration FunctionDeclaration tools acc = Ret decls ->
  exists new, decls = (acc ++ new)%list /\ Forall2 (declared dereference_refs declaration FunctionDeclaration) tools new.
Proof.
  induction tools as [|tool tools IH]; simpl; intros acc decls H.
  - injection H as <-. exists []. split; [now rewrite app_nil_r | constructor].
  - bind_inv H. bind_inv H. destruct (IH _ _ H) as [new [-> Hnew]].
    exists (a0 :: new). split; [now rewrite <- app_assoc|].
    constructor; [|exact Hnew]. exists a. auto.
Qed.

Lemma declare_tools_all tools : forall acc new,
  Forall2 (declared dereference_refs declaration FunctionDeclaration) tools new ->
  declare_tools dereference_refs declaration FunctionDeclaration tools acc
  = Ret (acc ++ new)%list.
Proof.
  induction tools as [|tool tools IH]; intros acc new H;
    inversion H as [|tool' d tools' new' Hd Hrest]; subst; simpl.
  - now rewrite app_nil_r.
  - destruct Hd as [func [Hf Hd]]. rewrite Hf. simpl. rewrite Hd. simpl.
    rewrite (IH _ new'); [now rewrite <- app_assoc | assumption].
Qed.

Lemma declare_tools_app pre rest : forall acc,
  declare_tools dereference_refs declaration FunctionDeclaration (pre ++ rest) acc =
  ds <- declare_tools dereference_refs declaration FunctionDeclaration pre acc ;;
  declare_tools dereference_refs declaration FunctionDeclaration rest ds.
Proof.
  induction pre as [|tool pre IH]; simpl; intros acc; [reflexivity|].
  destruct (format_tool dereference_refs tool) as [func| |]; simpl; try reflexivity.
  destruct (FunctionDeclaration func) as [d| |]; simpl; try reflexivity.
  apply IH.
Qed.

(** X1.  The builder returns exactly when every entry is formatted and
    declared and the bundle is built: the result is one bundle, made
    of one declaration per entry, in the order of the entries. *)
Theorem bundle_has_one_declaration_per_tool (tools : list tool_input)
    (result : list vertex_tool) :
  _format_tools_to_vertex_tool dereference_refs declaration FunctionDeclaration
    vertex_tool VertexTool tools = Ret result
  <-> exists decls t,
        result = [t] /\ VertexTool decls = Ret t /\ Forall2 (declared dereference_refs declaration FunctionDeclaration) tools decls.
Proof.
  unfold _format_tools_to_vertex_tool. split.
  - intros H. bind_inv H. bind_inv H. injection H as <-.
    destruct (declare_tools_Ret _ _ _ Ha) as [new [-> Hnew]].
    exists new, a0. auto.
  - intros [decls [t [-> [Ht Hd]]]].
    rewrite (declare_tools_all _ [] _ Hd). simpl. now rewrite Ht.
Qed.

(** X2.  An entry that is neither a tool, a structured type nor a
    dictionary makes the whole call fail, whatever the other entries
    are; when the entries before it are formatted and declared, the
    exception is the [ValueError] that shows the entry. *)
Theorem unsupported_tool_aborts (pre post : list tool_input) (v : json) :
  is_dict v = false ->
  (forall result,
     _format_tools_to_vertex_tool dereference_refs declaration FunctionDeclaration
       vertex_tool VertexTool (pre ++ IsValue v :: post) <> Ret result)
  /\ (forall ds,
        declare_tools dereference_refs declaration FunctionDeclaration pre [] = Ret ds ->
        _format_tools_to_vertex_tool dereference_refs declaration FunctionDeclaration
          vertex_tool VertexTool (pre ++ IsValue v :: post)
        = raise ValueError [Lit "Unsupported tool call type "; str_piece v]).
Proof.
  intros Hv.
  assert (Hf : format_tool dereference_refs (IsValue v)
               = raise ValueError [Lit "Unsupported tool call type "; str_piece v]).
  { destruct v; try reflexivity. discriminate. }
  unfold _format_tools_to_vertex_tool. split.
  - intros result H. bind_inv H. rewrite declare_tools_app in Ha.
    bind_inv Ha. cbn [declare_tools] in Ha. rewrite Hf in Ha. discriminate.
  - intros ds Hds. rewrite declare_tools_app, Hds. cbn [bind declare_tools].
    now rewrite Hf.
Qed.
End ToolBundleFacts.

Lemma bundle_has_one_declaration_per_tool_witness :
  exists result decls t,
    result = [t] /\ bundle_as_is decls = Ret t
    /\ Forall2 (declared no_refs dict declare_as_is) example_tools decls.
Proof.
  eexists.
  apply (proj1 (bundle_has_one_declaration_per_tool no_refs dict declare_as_is
                  (list dict) bundle_as_is example_tools _)).
  reflexivity.
Defined.

Lemma unsupported_tool_aborts_witness :
  (forall result,
     _format_tools_to_vertex_tool no_refs dict declare_as_is (list dict) bundle_as_is
       ([IsModelClass Cookie] ++ IsValue (JStr "search") :: [IsValue (JDict raw_tool)])
     <> Ret result)
  /\ _format_tools_to_vertex_tool no_refs dict declare_as_is (list dict) bundle_as_is
       ([IsModelClass Cookie] ++ IsValue (JStr "search") :: [IsValue (JDict raw_tool)])
     = raise ValueError [Lit "Unsupported tool call type "; Lit "search"].
Proof.
  destruct (unsupported_tool_aborts no_refs dict declare_as_is (list dict) bundle_as_is
              [IsModelClass Cookie] [IsValue (JDict raw_tool)] (JStr "search") eq_refl)
    as [H1 H2].
  split; [exact H1 | eapply H2; reflexivity].
Defined.

(** ** What the builders hand over *)

Lemma parameters_without_title dereference_refs schema out :
  _get_parameters_from_schema dereference_refs schema = Ret out ->
  dict_get "title" out = None /\ dict_get "definitions" out = None.
Proof.
  unfold _get_parameters_from_schema, parse_obj. intros H.
  bind_inv H. bind_inv H. bind_inv H. injection H as <-.
  destruct (validate_stripped _ _ Ha1) as [d [_ Hs]].
  destruct Hs. auto.
Qed.

(** X3.  A raw dictionary must have the three keys: the first one
    missing among [name], [description] and [parameters] is the
    [KeyError] raised, the description having no default here. *)
Theorem raw_tool_keys_required (dereference_refs : dict -> outcome dict) (tool : dict) :
  (dict_get "name" tool = None ->
   format_tool dereference_refs (IsValue (JDict tool))
   = raise KeyError [Repr (JStr "name")])
  /\ (dict_mem "name" tool = true -> dict_get "description" tool = None ->
      format_tool dereference_refs (IsValue (JDict tool))
      = raise KeyError [Repr (JStr "description")])
  /\ (dict_mem "name" tool = true -> dict_mem "description" tool = true ->
      dict_get "parameters" tool = None ->
      format_tool dereference_refs (IsValue (JDict tool))
      = raise KeyError [Repr (JStr "parameters")]).
Proof.
  unfold format_tool, dict_item, dict_mem. repeat split.
  - intros ->. reflexivity.
  - destruct (dict_get "name" tool); [|discriminate]. intros _ ->. reflexivity.
  - destruct (dict_get "name" tool); [|discriminate].
    destruct (dict_get "description" tool); [|discriminate].
    intros _ _ ->. reflexivity.
Qed.

Lemma raw_tool_keys_required_witness :
  format_tool no_refs (IsValue (JDict [("description", JStr "d")]))
  = raise KeyError [Repr (JStr "name")]
  /\ format_tool no_refs (IsValue (JDict [("name", JStr "n"); ("parameters", JDict [])]))
     = raise KeyError [Repr (JStr "description")]
  /\ format_tool no_refs (IsValue (JDict [("name", JStr "n"); ("description", JStr "d")]))
     = raise KeyError [Repr (JStr "parameters")].
Proof.
  split; [|split].
  - apply (proj1 (raw_tool_keys_required no_refs [("description", JStr "d")])).
    reflexivity.
  - apply (proj1 (proj2 (raw_tool_keys_required no_refs
                           [("name", JStr "n"); ("parameters", JDict [])])));
      reflexivity.
  - apply (proj2 (proj2 (raw_tool_keys_required no_refs
                           [("name", JStr "n"); ("description", JStr "d")])));
      reflexivity.
Defined.

(** X4.  Whatever the kind of the entry, the function description
    handed to [FunctionDeclaration] has exactly the keys [name],
    [description] and [parameters], and its parameters are a
    dictionary without a [title] and without [definitions]. *)
Theorem function_description_shape (dereference_refs : dict -> outcome dict)
    (tool : tool_input) (func : dict) :
  format_tool dereference_refs tool = Ret func ->
  keys func = ["name"; "description"; "parameters"]
  /\ exists parameters,
       dict_get "parameters" func = Some (JDict parameters)
       /\ dict_get "title" parameters = None
       /\ dict_get "definitions" parameters = None.
Proof.
  intros H. destruct tool as [tool|cls|v]; simpl in H.
  - unfold _format_tool_to_vertex_function in H.
    destruct (args_schema tool).
    + bind_inv H. bind_inv H. bind_inv H. injection H as <-.
      split; [reflexivity|]. exists a1. split; [reflexivity|].
      eapply parameters_without_title; eauto.
    + injection H as <-. split; [reflexivity|]. eexists. repeat split.
  - unfold _format_pydantic_to_vertex_function in H.
    bind_inv H. bind_inv H. injection H as <-.
    split; [reflexivity|]. exists a0. split; [reflexivity|].
    eapply parameters_without_title; eauto.
  - destruct v as [| | | | |d]; try discriminate.
    bind_inv H. bind_inv H. bind_inv H. bind_inv H. injection H as <-.
    split; [reflexivity|]. exists a2. split; [reflexivity|].
    destruct a1; try discriminate.
    eapply parameters_without_title; eauto.
Qed.

Lemma function_description_shape_witness :
  keys [("name", JStr "n"); ("description", JStr "d");
        ("parameters", JDict [("properties", JDict []); ("type", JStr "object")])]
  = ["name"; "description"; "parameters"]
  /\ exists parameters,
       dict_get "parameters"
         [("name", JStr "n"); ("description", JStr "d");
          ("parameters", JDict [("properties", JDict []); ("type", JStr "object")])]
       = Some (JDict parameters)
       /\ dict_get "title" parameters = None
       /\ dict_get "definitions" parameters = None.
Proof.
  apply (function_description_shape no_refs (IsValue (JDict raw_tool))).
  reflexivity.
Defined.

(** ** What the flattener keeps *)

Lemma keys_app (a b : dict) : keys (a ++ b)%list = (keys a ++ keys b)%list.
Proof. unfold keys. apply map_app. Qed.

Lemma for_items_keys_order body d : forall acc out,
  distinct (keys acc ++ keys d) = true ->
  for_items body d acc = Ret out ->
  keys out = (keys acc ++ keys d)%list.
Proof.
  induction d as [|[k0 v0] d IH]; simpl; intros acc out Hd H.
  - injection H as <-. now rewrite app_nil_r.
  - bind_inv H. pose proof (distinct_app_fresh _ _ _ Hd) as Hfresh.
    rewrite (dict_set_fresh _ _ _ Hfresh) in H.
    apply IH in H.
    + rewrite H, keys_app. simpl. now rewrite <- app_assoc.
    + rewrite keys_app. simpl. now rewrite <- app_assoc.
Qed.

(** X6.  The flattener keeps the keys of the dictionary it is called
    on, in their order: it adds none, drops none and moves none. *)
Theorem flattener_keeps_key_order (schema out : dict) :
  distinct (keys schema) = true ->
  _replace_all_ofs (JDict schema) = Ret out ->
  keys out = keys schema.
Proof.
  intros Hd H. rewrite _replace_all_ofs_items in H.
  exact (for_items_keys_order _ _ [] _ Hd H).
Qed.

Lemma flattener_keeps_key_order_witness :
  keys [("x", JDict [("type", JStr "string"); ("description", JStr "d1 d2");
                     ("title", JStr "T")])]
  = keys merge_example.
Proof.
  apply (flattener_keeps_key_order merge_example); reflexivity.
Defined.

(** X7.  A value that is not a dictionary and not a list that starts
    with one (a scalar, an empty list, a list of names such as
    [required]) comes out of the flattener as it went in. *)
Theorem flattener_copies_other_values (schema out : dict) (k : string) (v : json) :
  distinct (keys schema) = true ->
  In (k, v) schema ->
  copied v = true ->
  _replace_all_ofs (JDict schema) = Ret out ->
  dict_get k out = Some v.
Proof.
  intros Hd Hin Hc H. rewrite _replace_all_ofs_items in H.
  destruct (for_items_get _ _ _ _ H Hd _ _ Hin) as [v' [Hb Hg]].
  rewrite Hg. f_equal.
  destruct v as [| | | |[|[| | | | |x] l]|vd]; try discriminate;
    now injection Hb as <-.
Qed.

Lemma flattener_copies_other_values_witness :
  dict_get "required" flattened_described_field_schema = Some (JList [JStr "cookie"]).
Proof.
  apply (flattener_copies_other_values described_field_schema).
  - reflexivity.
  - right. right. right. left. reflexivity.
  - reflexivity.
  - reflexivity.
Defined.

(** X8.  The dictionary that replaces a one-element [allOf] holds,
    besides [title] and [description], what the member holds and
    nothing else: the other keys of the outer dictionary (a [default],
    for one) are dropped. *)
Theorem combinator_siblings_dropped (schema out : dict) (k : string)
    (v member : dict) :
  distinct (keys schema) = true ->
  In (k, JDict v) schema ->
  dict_get "allOf" v = Some (JList [JDict member]) ->
  _replace_all_ofs (JDict schema) = Ret out ->
  exists obj,
    dict_get k out = Some (JDict obj)
    /\ forall k', k' <> "title" -> k' <> "description" ->
                  dict_get k' obj = dict_get k' member.
Proof.
  intros Hd Hin Ha H.
  assert (Hm : dict_mem "allOf" v = true) by (unfold dict_mem; now rewrite Ha).
  destruct (flattener_replaces _ _ _ _ Hd Hin Hm H) as [obj [Hobj Hg]].
  apply merge_all_of_Ret in Hobj.
  destruct Hobj as [member' [inner [d1 [d2 [Ha' [Hc [_ [_ ->]]]]]]]].
  rewrite Ha in Ha'. injection Ha' as <-. simpl in Hc. injection Hc as <-.
  eexists. split; [exact Hg|].
  intros k' Ht Hds. rewrite !dict_get_set_other; auto.
Qed.

Lemma combinator_siblings_dropped_witness :
  exists obj,
    dict_get "p" [("p", JDict [("type", JStr "string"); ("title", JStr EmptyString);
                               ("description", JStr " ")])]
    = Some (JDict obj)
    /\ forall k', k' <> "title" -> k' <> "description" ->
                  dict_get k' obj = dict_get k' [("type", JStr "string")].
Proof.
  apply (combinator_siblings_dropped
           [("p", JDict [("allOf", JList [JDict [("type", JStr "string")]]);
                         ("default", JNull)])]
           _ "p"
           [("allOf", JList [JDict [("type", JStr "string")]]); ("default", JNull)]).
  - reflexivity.
  - left. reflexivity.
  - reflexivity.
  - reflexivity.
Defined.

(** ** A second pass of the flattener *)

Lemma keys_unique_dict d :
  keys_unique (JDict d) = true <->
  distinct (keys d) = true /\ forall k v, In (k, v) d -> keys_unique v = true.
Proof.
  simpl. rewrite andb_true_iff, forallb_forall. split.
  - intros [Hd Hv]. split; [exact Hd|]. intros k v Hin. exact (Hv _ Hin).
  - intros [Hd Hv]. split; [exact Hd|]. intros [k v] Hin. exact (Hv _ _ Hin).
Qed.

Lemma uniform_lists_dict d :
  uniform_lists (JDict d) = true <->
  forall k v, In (k, v) d -> uniform_lists v = true.
Proof.
  simpl. rewrite forallb_forall. split.
  - intros Hv k v Hin. exact (Hv _ Hin).
  - intros Hv [k v] Hin. exact (Hv _ _ Hin).
Qed.

Lemma distinct_dict_set k v d :
  distinct (keys d) = true -> distinct (keys (dict_set k v d)) = true.
Proof.
  induction d as [|[k0 v0] d IH]; [reflexivity|].
  change (keys ((k0, v0) :: d)) with (k0 :: keys d).
  intros Hd. apply distinct_cons in Hd. destruct Hd as [Hk0 Hd].
  simpl. destruct (String.eqb k k0) eqn:E.
  - change (keys ((k0, v) :: d)) with (k0 :: keys d). apply distinct_cons. auto.
  - change (keys ((k0, v0) :: dict_set k v d)) with (k0 :: keys (dict_set k v d)).
    apply distinct_cons. split; [|auto].
    rewrite keys_dict_set. intros [->|Hin]; [|tauto].
    now rewrite String.eqb_refl in E.
Qed.

(** A value with unique keys in which every list that starts with a
    dictionary holds only dictionaries. *)
Lemma well_shaped_dict_set k x d :
  keys_unique (JDict d) = true /\ uniform_lists (JDict d) = true ->
  keys_unique x = true /\ uniform_lists x = true ->
  keys_unique (JDict (dict_set k x d)) = true
  /\ uniform_lists (JDict (dict_set k x d)) = true.
Proof.
  rewrite !keys_unique_dict, !uniform_lists_dict.
  intros [[Hd Hk] Hu] [Hkx Hux]. repeat split.
  - now apply distinct_dict_set.
  - intros k' v' Hin. apply In_dict_set in Hin.
    destruct Hin as [[= -> ->]|Hin]; eauto.
  - intros k' v' Hin. apply In_dict_set in Hin.
    destruct Hin as [[= -> ->]|Hin]; eauto.
Qed.

Lemma merge_all_of_well_shaped vd obj :
  keys_unique (JDict vd) = true -> uniform_lists (JDict vd) = true ->
  combinator_resolved vd = true ->
  merge_all_of vd = Ret obj ->
  keys_unique obj = true /\ uniform_lists obj = true.
Proof.
  intros Hk Hu Hr H. apply merge_all_of_Ret in H.
  destruct H as [member [inner [d1 [d2 [Ha [Hc [H1 [H2 ->]]]]]]]].
  unfold combinator_resolved in Hr. rewrite Ha in Hr.
  destruct member as [| | | | |m]; try discriminate.
  simpl in Hc. injection Hc as <-.
  apply keys_unique_dict in Hk. destruct Hk as [_ Hk].
  pose proof (proj1 (uniform_lists_dict _) Hu) as Hu'.
  pose proof (dict_get_In _ _ _ Ha) as Hin.
  assert (Hm : keys_unique (JDict m) = true /\ uniform_lists (JDict m) = true).
  { pose proof (Hk _ _ Hin) as Hkm. pose proof (Hu' _ _ Hin) as Hum.
    simpl in Hkm, Hum. rewrite !andb_true_r in Hkm, Hum. simpl. auto. }
  apply well_shaped_dict_set; [|split; reflexivity].
  apply well_shaped_dict_set; [exact Hm|].
  unfold dict_get_default.
  destruct (dict_get "title" vd) as [t|] eqn:Et.
  - apply dict_get_In in Et. eauto.
  - destruct (dict_get "title" m) as [t|] eqn:Etm; [|split; reflexivity].
    apply dict_get_In in Etm. destruct Hm as [Hkm Hum].
    apply keys_unique_dict in Hkm. destruct Hkm as [_ Hkm].
    pose proof (proj1 (uniform_lists_dict _) Hum). eauto.
Qed.

Lemma replace_all_ofs_well_shaped : forall v d out,
  v = JDict d ->
  keys_unique v = true -> uniform_lists v = true ->
  combinators_visited v = true ->
  _replace_all_ofs v = Ret out ->
  keys_unique (JDict out) = true /\ uniform_lists (JDict out) = true.
Proof.
  induction v as [v IH] using json_size_ind. intros d out -> Hk Hu Hc H.
  pose proof Hk as Hk0. apply keys_unique_dict in Hk. destruct Hk as [Hd Hk].
  pose proof (proj1 (uniform_lists_dict _) Hu) as Hu'.
  simpl in Hc. apply andb_true_iff in Hc. destruct Hc as [_ Hall].
  rewrite forallb_forall in Hall.
  rewrite _replace_all_ofs_items in H.
  assert (Hvals : forall k v', In (k, v') out ->
            keys_unique v' = true /\ uniform_lists v' = true).
  { intros k v' Hin.
    destruct (for_items_from _ _ _ _ H _ _ Hin) as [[]|[v [Hv Hb]]].
    pose proof (Hall _ Hv) as Hcv. simpl in Hcv.
    pose proof (Hk _ _ Hv) as Hkv. pose proof (Hu' _ _ Hv) as Huv.
    pose proof (json_size_value _ _ _ Hv) as Hsz.
    assert (Hcopy : replace_value v = Ret v ->
                    keys_unique v' = true /\ uniform_lists v' = true).
    { intros E. rewrite E in Hb. injection Hb as <-. auto. }
    destruct v as [| | | |l|vd]; try (now apply Hcopy).
    - destruct l as [|x l']; [now apply Hcopy|].
      destruct x as [| | | | |xd]; try (now apply Hcopy).
      clear Hcopy. unfold replace_value in Hb. bind_inv Hb. injection Hb as <-.
      rewrite forallb_forall in Hcv.
      change (forallb keys_unique (JDict xd :: l') = true) in Hkv.
      change (uniform (JDict xd :: l') && forallb uniform_lists (JDict xd :: l') = true)
        in Huv.
      apply andb_true_iff in Huv. destruct Huv as [_ Hul].
      rewrite forallb_forall in Hkv, Hul.
      assert (Hel : forall y, In y a ->
                is_dict y = true /\ keys_unique y = true /\ uniform_lists y = true).
      { intros y Hy. destruct (list_comp_In _ _ _ Ha _ Hy) as [s [Hs Hf]].
        bind_inv Hf. injection Hf as <-.
        destruct s as [| | | | |sd]; try discriminate.
        split; [reflexivity|].
        apply (IH (JDict sd)) with (d := sd); auto.
        pose proof (json_size_element _ _ Hs). lia. }
      split.
      + simpl. apply forallb_forall. intros y Hy. now apply Hel.
      + simpl. apply andb_true_iff. split.
        * unfold uniform. destruct a as [|y a']; [reflexivity|].
          destruct y; try reflexivity.
          apply forallb_forall. intros z Hz. now apply Hel.
        * apply forallb_forall. intros y Hy. now apply Hel.
    - clear Hcopy. unfold replace_value in Hb.
      destruct (dict_mem "allOf" vd) eqn:Em.
      + eapply merge_all_of_well_shaped; eauto.
      + bind_inv Hb. injection Hb as <-.
        apply (IH (JDict vd)) with (d := vd); auto. }
  split.
  - apply keys_unique_dict. split; [|intros k v' Hin; now apply (Hvals k)].
    now rewrite (for_items_keys_order _ _ [] _ Hd H).
  - apply uniform_lists_dict. intros k v' Hin. now apply (Hvals k).
Qed.

(** X5.  On a schema in which every combinator is visited and in
    which every list that starts with a schema is a list of schemas, a
    second pass of the flattener changes nothing: it returns the result
    of the first. *)
Theorem flattener_second_pass_unchanged (schema out : dict) :
  keys_unique (JDict schema) = true ->
  uniform_lists (JDict schema) = true ->
  combinators_visited (JDict schema) = true ->
  _replace_all_ofs (JDict schema) = Ret out ->
  _replace_all_ofs (JDict out) = Ret out.
Proof.
  intros Hk Hu Hc H.
  destruct (replace_all_ofs_well_shaped _ _ _ eq_refl Hk Hu Hc H) as [Hk' Hu'].
  apply replace_all_ofs_same; auto.
  eapply replace_all_ofs_resolved; eauto.
Qed.

Lemma flattener_second_pass_unchanged_witness :
  _replace_all_ofs (JDict flattened_described_field_schema)
  = Ret flattened_described_field_schema.
Proof.
  apply (flattener_second_pass_unchanged described_field_schema); reflexivity.
Defined.

(** ** The exceptions of the flattener *)

Ltac rof := first [exact I | reflexivity].

Lemma returns_or_fails_bind {A B} ok (c : outcome A) (k : A -> outcome B) :
  returns_or_fails ok c -> (forall x, returns_or_fails ok (k x)) ->
  returns_or_fails ok (bind c k).
Proof. destruct c; simpl; auto. Qed.

Lemma for_items_returns_or_fails ok body d :
  (forall k v, In (k, v) d -> returns_or_fails ok (body v)) ->
  forall acc, returns_or_fails ok (for_items body d acc).
Proof.
  induction d as [|[k0 v0] d IH]; simpl; intros Hb acc; [rof|].
  apply returns_or_fails_bind; [apply (Hb k0); now left|].
  intros x. apply IH. intros k v Hin. apply (Hb k). now right.
Qed.

Lemma list_comp_returns_or_fails {A B} ok (f : A -> outcome B) l :
  (forall x, In x l -> returns_or_fails ok (f x)) ->
  returns_or_fails ok (list_comp f l).
Proof.
  induction l as [|x l IH]; simpl; intros Hf; [rof|].
  apply returns_or_fails_bind; [apply Hf; now left|].
  intros y. apply returns_or_fails_bind; [|intros; rof].
  apply IH. intros z Hz. apply Hf. now right.
Qed.

Lemma dict_pair_fails e : returns_or_fails flattener_exception (dict_pair e).
Proof.
  destruct e as [| | |s|l|d]; try rof.
  - destruct s as [|a [|b [|c s]]]; rof.
  - destruct l as [|k [|v [|x l]]]; try rof. destruct k; rof.
  - destruct d as [|[k1 v1] [|[k2 v2] [|kv d]]]; rof.
Qed.

Lemma dict_update_pairs_fails l : forall acc,
  returns_or_fails flattener_exception (dict_update_pairs l acc).
Proof.
  induction l as [|e l IH]; simpl; intros acc; [rof|].
  apply returns_or_fails_bind; [apply dict_pair_fails | intros kv; apply IH].
Qed.

Lemma dict_ctor_fails x : returns_or_fails flattener_exception (dict_ctor x).
Proof. destruct x; try rof; apply dict_update_pairs_fails. Qed.

Lemma merge_all_of_fails vd :
  dict_mem "allOf" vd = true ->
  returns_or_fails flattener_exception (merge_all_of vd).
Proof.
  unfold dict_mem, merge_all_of. destruct (dict_get "allOf" vd) as [a|]; [|discriminate].
  intros _. destruct a as [| | | |l|]; try rof.
  destruct l as [|member [|x l]]; try rof.
  apply returns_or_fails_bind; [apply dict_ctor_fails|]. intros obj.
  apply returns_or_fails_bind; [|intros; rof].
  unfold str_join2.
  destruct (dict_get_default "description" (JStr EmptyString) vd); try rof.
  match goal with |- context [match ?x with _ => _ end] => destruct x end; rof.
Qed.

Lemma replace_all_ofs_fails : forall v,
  returns_or_fails flattener_exception (_replace_all_ofs v).
Proof.
  induction v as [v IH] using json_size_ind.
  destruct v as [| | | | |d]; try rof.
  rewrite _replace_all_ofs_items. apply for_items_returns_or_fails.
  intros k v Hin. pose proof (json_size_value _ _ _ Hin) as Hsz.
  destruct v as [| | | |l|vd]; try rof.
  - destruct l as [|x l']; [rof|].
    destruct x as [| | | | |xd]; try rof.
    unfold replace_value.
    apply returns_or_fails_bind; [|intros; rof].
    apply list_comp_returns_or_fails. intros s Hs.
    apply returns_or_fails_bind; [|intros; rof].
    apply IH. pose proof (json_size_element _ _ Hs). lia.
  - unfold replace_value. destruct (dict_mem "allOf" vd) eqn:Em.
    + now apply merge_all_of_fails.
    + apply returns_or_fails_bind; [|intros; rof]. now apply IH.
Qed.

(** X9.  On any object the flattener raises nothing but [ValueError],
    [TypeError] and [AttributeError]; in particular the subscripts
    [v["allOf"]] and [v["allOf"][0]] never raise [KeyError] or
    [IndexError]. *)
Theorem flattener_exception_classes (schema : json) (e : exn) :
  _replace_all_ofs schema = Raise e ->
  exn_class_of e = ValueError \/ exn_class_of e = TypeError
  \/ exn_class_of e = AttributeError.
Proof.
  intros H. pose proof (replace_all_ofs_fails schema) as Hf. rewrite H in Hf.
  unfold returns_or_fails, flattener_exception in Hf.
  destruct (exn_class_of e); try discriminate; auto.
Qed.

Lemma flattener_exception_classes_witness :
  exn_class_of (Exn AttributeError []) = ValueError
  \/ exn_class_of (Exn AttributeError []) = TypeError
  \/ exn_class_of (Exn AttributeError []) = AttributeError.
Proof.
  apply (flattener_exception_classes
           (JDict [("anyOf", JList [JDict []; JStr "string"])])).
  reflexivity.
Defined.

(** ** From the schema of a class to the parameters *)

Lemma keys_export_each ps outs :
  Forall2 (fun c r => c = Ret r) (validate_each ps) outs ->
  keys (export_each outs) = keys ps
  /\ forall k v', In (k, v') (export_each outs) ->
       exists x m, In (k, x) ps /\ validate x = Ret m /\ v' = JDict (model_dict m).
Proof.
  revert outs. induction ps as [|[k x] ps IH]; simpl; intros outs H.
  - inversion H. split; [reflexivity | intros ? ? []].
  - inversion H as [|c r l rs Hc Hrest]; subst. bind_inv Hc. injection Hc as <-.
    destruct (IH _ Hrest) as [Hk Hv]. simpl. split; [now rewrite Hk|].
    intros k' v' [[= <- <-]|Hin].
    + exists x, a. auto.
    + destruct (Hv _ _ Hin) as [x' [m [Hx [Hm ->]]]]. exists x', m. auto.
Qed.

Lemma validate_no_allOf : forall v m,
  validate v = Ret m -> has_allOf v = false ->
  has_allOf (JDict (model_dict m)) = false.
Proof.
  induction v as [v IH] using json_size_ind. intros m H Hno.
  destruct v as [| | | | |d];
    try (exfalso; exact (not_a_dict_never_returns _ _ H)).
  destruct (existsb hides_attribute (keys d)) eqn:Eh;
    [cbn [validate] in H; rewrite Eh in H; discriminate|].
  rewrite (validate_dict _ Eh) in H. bind_inv H. injection H as <-.
  apply both_Ret in Ha. destruct Ha as [_ Hr].
  apply both_Ret in Hr. destruct Hr as [Hi Hp].
  destruct a as [[t df] [i p]]. cbn [fst snd] in *.
  rewrite field_on_values in Hi. rewrite field_on_values in Hp.
  rewrite model_dict_parts. cbn [items properties extra].
  apply has_allOf_dict in Hno. destruct Hno as [Htop Hvals].
  apply has_allOf_dict. split.
  - unfold dict_mem. rewrite !dict_get_app, dict_get_extra_fields.
    unfold dict_mem in Htop.
    destruct i, p; simpl; destruct (dict_get "allOf" d); congruence.
  - intros k v' Hin. apply in_app_or in Hin. destruct Hin as [Hin|Hin].
    { destruct i as [| |mi]; simpl in Hin; try tauto;
        destruct Hin as [[= <- <-]|[]]; [reflexivity|].
      destruct (dict_get "items" d) as [vi|] eqn:Ev; [|discriminate].
      pose proof (dict_get_In _ _ _ Ev) as Hvi.
      destruct vi; try discriminate; unfold optional in Hi; bind_inv Hi;
        injection Hi as <-;
        (eapply IH; [exact (json_size_value _ _ _ Hvi) | exact Ha | eauto]). }
    apply in_app_or in Hin. destruct Hin as [Hin|Hin].
    { destruct p as [| |ps]; simpl in Hin; try tauto;
        destruct Hin as [[= <- <-]|[]]; [reflexivity|].
      destruct (dict_get "properties" d) as [vp|] eqn:Ev; [|discriminate].
      pose proof (dict_get_In _ _ _ Ev) as Hvp.
      pose proof (json_size_value _ _ _ Hvp) as Hsz.
      pose proof (Hvals _ _ Hvp) as Hnp.
      destruct vp as [| | | | |psin]; try discriminate;
        unfold optional in Hp; bind_inv Hp; injection Hp as <-;
        try (exfalso; exact (not_a_dict_never_returns _ _ Ha)).
      rewrite mapping_validator_dict in Ha. apply all_of_Ret in Ha.
      destruct (keys_export_each _ _ Ha) as [Hk Hv].
      apply has_allOf_dict in Hnp. destruct Hnp as [Htp Hvp'].
      apply has_allOf_dict. split.
      - destruct (dict_mem "allOf" (export_each a)) eqn:E; [|reflexivity].
        apply dict_mem_keys in E. rewrite Hk in E. apply dict_mem_keys in E.
        congruence.
      - intros k' v'' Hin'. destruct (Hv _ _ Hin') as [x [m [Hx [Hm ->]]]].
        eapply IH; [|exact Hm|eauto].
        pose proof (json_size_value _ _ _ Hx). lia. }
    unfold extra_fields in Hin. apply filter_In in Hin. destruct Hin as [Hin _].
    eauto.
Qed.



(** ** What the parser returns and when *)

Section ParserFacts.
Variable json_loads : string -> outcome json.

(** X11.  [parse_result] returns only what the constructor of the
    selected structured type makes of the decoded arguments: the first
    generation is a chat generation, its message has a function call
    with a name and with arguments that are a string, the string
    decodes to a JSON object, and the instance is built from it. *)
Theorem parse_result_returns_built_instance (self : pydantic_schema)
    (result : list generation) (i : instance) :
  parse_result json_loads self result = Ret i ->
  exists message rest function_call function_name arguments kwargs cls,
    result = ChatGeneration message :: rest
    /\ dict_get "function_call" (additional_kwargs message) = Some (JDict function_call)
    /\ dict_get "name" function_call = Some function_name
    /\ dict_get "arguments" function_call = Some (JStr arguments)
    /\ selects self function_name cls
    /\ json_loads arguments = Ret (JDict kwargs)
    /\ model_init cls kwargs = Ret i.
Proof.
  intros H. destruct result as [|[text|message] rest]; try discriminate.
  unfold parse_result, dict_get_default in H.
  destruct (dict_get "function_call" (additional_kwargs message)) as [fc|] eqn:Efc;
    [|discriminate].
  destruct (truthy fc); [|discriminate].
  destruct fc as [| | | | |fc]; try discriminate.
  bind_inv H. bind_inv H. bind_inv H.
  unfold dict_item in Ha. destruct (dict_get "name" fc) as [n|] eqn:En; [|discriminate].
  injection Ha as <-.
  unfold loads in Ha1.
  destruct (dict_get "arguments" fc) as [[| | |text| |]|] eqn:Ea; try discriminate.
  unfold call_model in H. destruct a1 as [| | | | |kwargs]; try discriminate.
  exists message, rest, fc, n, text, kwargs, a0.
  repeat split; auto.
  unfold selects. destruct self; [now injection Ha0 | exact Ha0].
Qed.

(** X12.  With a dictionary of structured types, a function name the
    dictionary does not hold raises [KeyError] with that name, before
    the arguments are looked at. *)
Theorem unknown_function_name_raises (by_name : list (string * model_class))
    (message : message) (rest : list generation) (function_call : dict) (s : string) :
  dict_get "function_call" (additional_kwargs message) = Some (JDict function_call) ->
  dict_get "name" function_call = Some (JStr s) ->
  find (fun kc => String.eqb s (fst kc)) by_name = None ->
  parse_result json_loads (ModelsByName by_name) (ChatGeneration message :: rest)
  = raise KeyError [Repr (JStr s)].
Proof.
  intros Hfc Hn Hf. unfold parse_result, dict_get_default. rewrite Hfc.
  assert (Ht : truthy (JDict function_call) = true)
    by (destruct function_call; [discriminate | reflexivity]).
  rewrite Ht. unfold dict_item. rewrite Hn. cbn [bind schema_item]. now rewrite Hf.
Qed.

(** X13.  A function call whose arguments are missing, or are not a
    string, raises [TypeError]: the default of the lookup is a
    dictionary, which [json.loads] does not take. *)
Theorem arguments_must_be_text (self : pydantic_schema) (message : message)
    (rest : list generation) (function_call : dict) (function_name : json)
    (cls : model_class) :
  dict_get "function_call" (additional_kwargs message) = Some (JDict function_call) ->
  dict_get "name" function_call = Some function_name ->
  selects self function_name cls ->
  (forall text, dict_get "arguments" function_call <> Some (JStr text)) ->
  parse_result json_loads self (ChatGeneration message :: rest) = raise TypeError [].
Proof.
  intros Hfc Hn Hs Ha. unfold parse_result, dict_get_default. rewrite Hfc.
  assert (Ht : truthy (JDict function_call) = true)
    by (destruct function_call; [discriminate | reflexivity]).
  rewrite Ht. unfold dict_item. rewrite Hn. cbn [bind].
  assert (Hsel : match self with
                 | OneModel c => Ret c
                 | ModelsByName by_name => schema_item by_name function_name
                 end = Ret cls).
  { unfold selects in Hs. destruct self; [now rewrite Hs | exact Hs]. }
  rewrite Hsel. cbn [bind].
  destruct (dict_get "arguments" function_call) as [[| | |text| |]|]; try reflexivity.
  destruct (Ha text eq_refl).
Qed.

(** X14.  A parser that holds one structured type does not check the
    name of the function call: two calls with the same arguments give
    the same result, whatever their names. *)
Theorem single_model_ignores_name (cls : model_class) (m1 m2 : message)
    (rest1 rest2 : list generation) (call1 call2 : dict) :
  dict_get "function_call" (additional_kwargs m1) = Some (JDict call1) ->
  dict_get "function_call" (additional_kwargs m2) = Some (JDict call2) ->
  dict_mem "name" call1 = true ->
  dict_mem "name" call2 = true ->
  dict_get "arguments" call1 = dict_get "arguments" call2 ->
  parse_result json_loads (OneModel cls) (ChatGeneration m1 :: rest1)
  = parse_result json_loads (OneModel cls) (ChatGeneration m2 :: rest2).
Proof.
  intros H1 H2 Hn1 Hn2 Ha. unfold parse_result, dict_get_default.
  rewrite H1, H2, Ha.
  assert (Ht1 : truthy (JDict call1) = true)
    by (destruct call1; [discriminate | reflexivity]).
  assert (Ht2 : truthy (JDict call2) = true)
    by (destruct call2; [discriminate | reflexivity]).
  rewrite Ht1, Ht2. unfold dict_item, dict_mem in *.
  destruct (dict_get "name" call1); [|discriminate].
  destruct (dict_get "name" call2); [|discriminate].
  reflexivity.
Qed.
End ParserFacts.

Lemma parse_result_returns_built_instance_witness :
  exists message rest function_call function_name arguments kwargs cls,
    [function_call_generation "cookie" cookie_arguments] = ChatGeneration message :: rest
    /\ dict_get "function_call" (additional_kwargs message) = Some (JDict function_call)
    /\ dict_get "name" function_call = Some function_name
    /\ dict_get "arguments" function_call = Some (JStr arguments)
    /\ selects (ModelsByName [("cookie", Cookie)]) function_name cls
    /\ JsonText.json_loads arguments = Ret (JDict kwargs)
    /\ model_init cls kwargs = Ret cookie.
Proof.
  apply (parse_result_returns_built_instance JsonText.json_loads
           (ModelsByName [("cookie", Cookie)])
           [function_call_generation "cookie" cookie_arguments] cookie).
  reflexivity.
Defined.

Lemma unknown_function_name_raises_witness :
  parse_result JsonText.json_loads (ModelsByName [("cookie", Cookie)])
    [function_call_generation "Cookie" "not json"]
  = raise KeyError [Repr (JStr "Cookie")].
Proof.
  apply (unknown_function_name_raises JsonText.json_loads [("cookie", Cookie)] _ []
           [("name", JStr "Cookie"); ("arguments", JStr "not json")] "Cookie");
    reflexivity.
Defined.

Lemma arguments_must_be_text_witness :
  parse_result JsonText.json_loads (OneModel Cookie)
    [ChatGeneration
       (Message EmptyString [("function_call", JDict [("name", JStr "cookie")])])]
  = raise TypeError [].
Proof.
  apply (arguments_must_be_text JsonText.json_loads (OneModel Cookie) _ []
           [("name", JStr "cookie")] (JStr "cookie") Cookie).
  - reflexivity.
  - reflexivity.
  - reflexivity.
  - intros text H. discriminate.
Defined.

Lemma single_model_ignores_name_witness :
  parse_result JsonText.json_loads (OneModel Cookie)
    [function_call_generation "cookie" cookie_arguments]
  = parse_result JsonText.json_loads (OneModel Cookie)
      [function_call_generation "dog" cookie_arguments; Generation "more"].
Proof.
  apply (single_model_ignores_name JsonText.json_loads Cookie _ _ [] [Generation "more"]
           [("name", JStr "cookie"); ("arguments", JStr cookie_arguments)]
           [("name", JStr "dog"); ("arguments", JStr cookie_arguments)]);
    reflexivity.
Defined.

(** ** The name and the description of a tool *)

(** X15.  A tool with a name and a description of its own gets them,
    and the title and the description of its argument schema are not
    read: the builder succeeds exactly when the parameters are built,
    even on a schema without a title or a description. *)
Theorem tool_name_and_description_win (dereference_refs : dict -> outcome dict)
    (tool : BaseTool) (cls : model_class) (d : string) :
  args_schema tool = Some cls ->
  name tool <> EmptyString ->
  description tool = Some d -> d <> EmptyString ->
  _format_tool_to_vertex_function dereference_refs tool =
  parameters <- _get_parameters_from_schema dereference_refs (model_schema cls) ;;
  Ret [("name", JStr (name tool)); ("description", JStr d);
       ("parameters", JDict parameters)].
Proof.
  intros Ha Hn Hd Hne. unfold _format_tool_to_vertex_function. rewrite Ha, Hd.
  apply String.eqb_neq in Hn, Hne.
  unfold py_or, opt_str, truthy. rewrite Hn, Hne. reflexivity.
Qed.

Lemma tool_name_and_description_win_witness :
  _format_tool_to_vertex_function no_refs
    {| name := "jar"; description := Some "A jar";
       args_schema := Some {| model_schema := [("type", JStr "object")];
                              model_init := fun kwargs => Ret (Instance kwargs) |} |}
  = Ret [("name", JStr "jar"); ("description", JStr "A jar");
         ("parameters", JDict [("type", JStr "object")])].
Proof.
  rewrite (tool_name_and_description_win no_refs _
             {| model_schema := [("type", JStr "object")];
                model_init := fun kwargs => Ret (Instance kwargs) |} "A jar");
    try reflexivity; discriminate.
Defined.

(** X16.  A tool without a name and a description of its own is
    formatted like its argument schema, provided the schema has a
    description; without one the two builders differ. *)
Theorem unnamed_tool_formatted_as_its_schema (dereference_refs : dict -> outcome dict)
    (tool : BaseTool) (cls : model_class) :
  args_schema tool = Some cls ->
  name tool = EmptyString ->
  description tool = None \/ description tool = Some EmptyString ->
  dict_mem "description" (model_schema cls) = true ->
  _format_tool_to_vertex_function dereference_refs tool
  = _format_pydantic_to_vertex_function dereference_refs cls.
Proof.
  intros Ha Hn Hd Hs.
  unfold _format_tool_to_vertex_function, _format_pydantic_to_vertex_function.
  rewrite Ha, Hn.
  assert (Hf : truthy (opt_str (description tool)) = false)
    by (destruct Hd as [-> | ->]; reflexivity).
  unfold py_or. rewrite Hf. cbn [truthy String.eqb negb].
  unfold dict_item, dict_get_default, dict_mem in *.
  destruct (dict_get "title" (model_schema cls)); [|reflexivity].
  destruct (dict_get "description" (model_schema cls)); [reflexivity|discriminate].
Qed.

Lemma unnamed_tool_formatted_as_its_schema_witness :
  _format_tool_to_vertex_function no_refs unnamed_tool
  = _format_pydantic_to_vertex_function no_refs Jar.
Proof.
  apply (unnamed_tool_formatted_as_its_schema no_refs unnamed_tool Jar).
  - reflexivity.
  - reflexivity.
  - left. reflexivity.
  - reflexivity.
Defined.

(** ** The names of the properties *)

(** X17.  The filter keeps every name under [properties], in the
    order of the input: a property called [title] or [definitions] is
    not taken for the field of that name. *)
Theorem property_names_kept (dereference_refs : dict -> outcome dict)
    (schema dereferenced flattened out ps : dict) :
  dereference_refs schema = Ret dereferenced ->
  _replace_all_ofs (JDict dereferenced) = Ret flattened ->
  dict_get "properties" flattened = Some (JDict ps) ->
  _get_parameters_from_schema dereference_refs schema = Ret out ->
  exists outs, dict_get "properties" out = Some (JDict outs) /\ keys outs = keys ps.
Proof.
  intros Hd Hf Hp H. unfold _get_parameters_from_schema, parse_obj in H.
  rewrite Hd in H. cbn [bind] in H. rewrite Hf in H. cbn [bind] in H.
  bind_inv H. injection H as <-.
  destruct (existsb hides_attribute (keys flattened)) eqn:Eh;
    [cbn [validate] in Ha; rewrite Eh in Ha; discriminate|].
  rewrite (validate_dict _ Eh) in Ha. bind_inv Ha. injection Ha as <-.
  apply both_Ret in Ha0. destruct Ha0 as [_ Hr].
  apply both_Ret in Hr. destruct Hr as [_ Hpr].
  destruct a0 as [[t df] [i p]]. cbn [fst snd] in *.
  rewrite field_on_values, Hp in Hpr. unfold optional in Hpr.
  bind_inv Hpr. injection Hpr as <-.
  rewrite mapping_validator_dict in Ha. apply all_of_Ret in Ha.
  destruct (keys_export_each _ _ Ha) as [Hk _].
  exists (export_each a). split; [|exact Hk].
  rewrite model_dict_parts. cbn [items properties extra].
  rewrite dict_get_app. destruct i; reflexivity.
Qed.

Lemma property_names_kept_witness :
  exists outs,
    dict_get "properties"
      [("properties",
        JDict [("title", JDict [("type", JStr "string")]);
               ("tags", JDict [("items", JDict [("type", JStr "string")]);
                               ("type", JStr "array")])]);
       ("type", JStr "object"); ("required", JList [JStr "title"])]
    = Some (JDict outs)
    /\ keys outs
       = keys [("title", JDict [("title", JStr "Title"); ("type", JStr "string")]);
               ("tags", JDict [("title", JStr "Tags"); ("type", JStr "array");
                               ("items", JDict [("title", JStr "Tag");
                                                ("type", JStr "string")])])].
Proof.
  apply (property_names_kept no_refs filter_example filter_example filter_example);
    reflexivity.
Defined.
